(** * Byte window inspector: the two diagnostic scripts of hodei-artifacts

    [find_error_char.py] and [check_bytes_correctly.py] read a schema file in
    binary mode and print what lies around byte offset 1175.  Both scripts are
    embedded here as programs of a small output-and-exception monad over the
    bytes of the file.  The offset 1175 that the scripts hard-code is the
    argument [pos] of the embedded scripts; the scripts themselves are the
    instances at [ERROR_POS].  The string literals of the scripts are kept
    verbatim (they mention 1175 in their text). *)

From Stdlib Require Import ZArith List Bool Lia String Ascii Sorted.
From Stdlib Require Import Strings.Byte DecimalString HexadecimalString DecimalN.
Import ListNotations.
Local Open Scope Z_scope.

(** ** Python values *)

(** [int] is [Z]; [bytes] is a list of bytes; [str] is the list of its code
    points. *)
Definition bytes := list byte.
Definition str := list Z.

Definition byte_int (b : byte) : Z := Z.of_N (Byte.to_N b).

(** [len(content)] *)
Definition len {A} (l : list A) : Z := Z.of_nat (List.length l).

(** A string literal of the source, all of whose characters are ASCII. *)
Definition lit (s : string) : str :=
  map (fun a => Z.of_N (N_of_ascii a)) (list_ascii_of_string s).

(** The escape [\n] inside a Python literal. *)
Definition NL : str := [10].

(** The bytes literal [b'\n']. *)
Definition newline : byte := "010"%byte.

(** *** Format specifications of the f-strings *)

Definition digits (z : Z) : str :=
  lit (DecimalString.NilEmpty.string_of_uint (N.to_uint (Z.to_N z))).

(** [{z}] and [{z:d}] *)
Definition fmt_d (z : Z) : str :=
  if z <? 0 then lit "-" ++ digits (- z) else digits z.

Definition hexdigits (z : Z) : str :=
  lit (HexadecimalString.NilEmpty.string_of_uint (N.to_hex_uint (Z.to_N z))).

(** Padding on the left up to a minimal width, as integers are aligned. *)
Definition pad_left (fill : Z) (width : nat) (s : str) : str :=
  repeat fill (width - List.length s)%nat ++ s.

(** The zero flag pads after the sign. *)
Definition pad_zero (width : nat) (z : Z) (body : str) : str :=
  if z <? 0
  then lit "-" ++ repeat 48 (width - 1 - List.length body)%nat ++ body
  else repeat 48 (width - List.length body)%nat ++ body.

(** [{z:4d}] and [{z:3d}] *)
Definition fmt_wd (width : nat) (z : Z) : str := pad_left 32 width (fmt_d z).

(** [{z:02x}] *)
Definition fmt_02x (z : Z) : str :=
  pad_zero 2 z (hexdigits (Z.abs z)).

(** ** Outcomes of a script *)

Inductive exn : Set :=
| IndexError
| ValueError.

Inductive result (A : Type) : Type :=
| Ok (a : A)
| Raise (e : exn).
Arguments Ok {A} a.
Arguments Raise {A} e.

(** A computation receives what has been printed so far and gives back what
    has been printed when it stops, one [str] for each call of [print], with
    either its value or the exception that nothing catches. *)
Definition py (A : Type) : Type := list str -> list str * result A.

Definition ret {A} (a : A) : py A := fun out => (out, Ok a).

Definition bind {A B} (m : py A) (k : A -> py B) : py B :=
  fun out =>
    match m out with
    | (out', Ok a) => k a out'
    | (out', Raise e) => (out', Raise e)
    end.

Definition raise {A} (e : exn) : py A := fun out => (out, Raise e).

Definition print (s : str) : py unit := fun out => (out ++ [s], Ok tt).

Declare Scope py_scope.
Delimit Scope py_scope with py.
Notation "x <- m ;; k" := (bind m (fun x => k))
  (at level 61, m at next level, right associativity) : py_scope.
Notation "m ;; k" := (bind m (fun _ => k))
  (at level 61, right associativity) : py_scope.

(** [for x in xs: body] *)
Fixpoint for_ {A} (xs : list A) (body : A -> py unit) : py unit :=
  match xs with
  | [] => ret tt
  | x :: xs' => bind (body x) (fun _ => for_ xs' body)
  end.

(** Running a script from an empty output. *)
Definition run {A} (m : py A) : list str * result A := m [].

(** ** Built-ins used by the scripts *)

(** [range(a, b)] *)
Definition range (a b : Z) : list Z :=
  map (fun k => a + Z.of_nat k) (seq 0 (Z.to_nat (b - a))).

(** [content[i]]: a negative index counts from the end, and an index outside
    the sequence raises [IndexError]. *)
Definition getitem (content : bytes) (i : Z) : py Z :=
  let j := if i <? 0 then i + len content else i in
  if j <? 0 then raise IndexError
  else match nth_error content (Z.to_nat j) with
       | Some b => ret (byte_int b)
       | None => raise IndexError
       end.

(** [chr(i)] *)
Definition chr (i : Z) : py str :=
  if (0 <=? i) && (i <? 1114112) then ret [i] else raise ValueError.

(** How a slice bound is brought into [0 .. n]. *)
Definition clamp_index (n i : Z) : Z :=
  if i <? 0 then Z.max 0 (i + n) else Z.min i n.

(** [content[a:b]] *)
Definition slice (content : bytes) (a b : Z) : bytes :=
  let a' := clamp_index (len content) a in
  let b' := clamp_index (len content) b in
  firstn (Z.to_nat (b' - a')) (skipn (Z.to_nat a') content).

(** Lowest and highest position of a byte in a list whose first element has
    index [i]; [-1] when the byte does not occur. *)
Fixpoint find_index (sub : byte) (l : bytes) (i : Z) : Z :=
  match l with
  | [] => -1
  | b :: l' => if Byte.eqb b sub then i else find_index sub l' (i + 1)
  end.

Fixpoint rfind_index (sub : byte) (l : bytes) (i : Z) : Z :=
  match l with
  | [] => -1
  | b :: l' =>
      let r := rfind_index sub l' (i + 1) in
      if r =? -1 then (if Byte.eqb b sub then i else -1) else r
  end.

(** [content.find(sub, start)] and [content.rfind(sub, start, end)] for a
    [sub] of one byte, which is how the scripts call them. *)
Definition find (content : bytes) (sub : byte) (start : Z) : Z :=
  let s := clamp_index (len content) start in
  find_index sub (skipn (Z.to_nat s) content) s.

Definition rfind (content : bytes) (sub : byte) (start end_ : Z) : Z :=
  let s := clamp_index (len content) start in
  let e := clamp_index (len content) end_ in
  rfind_index sub (firstn (Z.to_nat (e - s)) (skipn (Z.to_nat s) content)) s.

(** *** [bytes.decode('utf-8', errors='replace')]

    The decoder reads the bytes from left to right.  At each position it
    either decodes one well-formed sequence, or reports a span of one to three
    bytes as an error: an invalid start byte, a lead byte with the valid
    continuation bytes read before the offending byte, or a sequence that the
    end of the data cuts short.  The handler [replace] puts U+FFFD for each
    reported span and decoding resumes after it, so that no exception is
    raised. *)

Inductive chunk : Set :=
| Decoded (cp : Z) (src : bytes)
| Malformed (src : bytes).

Definition chunk_src (c : chunk) : bytes :=
  match c with
  | Decoded _ src => src
  | Malformed src => src
  end.

Definition REPLACEMENT : Z := 65533.

Definition chunk_char (c : chunk) : Z :=
  match c with
  | Decoded cp _ => cp
  | Malformed _ => REPLACEMENT
  end.

Definition is_continuation (ch : Z) : bool := (128 <=? ch) && (ch <? 192).

(** The second byte of a sequence of three or four bytes is restricted by
    the lead byte, which excludes overlong forms, surrogates and code points
    above U+10FFFF. *)
Definition bad_second3 (ch ch2 : Z) : bool :=
  negb (is_continuation ch2) || (if ch2 <? 160 then ch =? 224 else ch =? 237).

Definition bad_second4 (ch ch2 : Z) : bool :=
  negb (is_continuation ch2) || (if ch2 <? 144 then ch =? 240 else ch =? 244).

Definition cp2 (ch ch2 : Z) : Z :=
  Z.lor (Z.shiftl (Z.land ch 31) 6) (Z.land ch2 63).

Definition cp3 (ch ch2 ch3 : Z) : Z :=
  Z.lor (Z.lor (Z.shiftl (Z.land ch 15) 12) (Z.shiftl (Z.land ch2 63) 6))
        (Z.land ch3 63).

Definition cp4 (ch ch2 ch3 ch4 : Z) : Z :=
  Z.lor (Z.lor (Z.lor (Z.shiftl (Z.land ch 7) 18)
                      (Z.shiftl (Z.land ch2 63) 12))
               (Z.shiftl (Z.land ch3 63) 6))
        (Z.land ch4 63).

Fixpoint utf8_chunks (bs : bytes) : list chunk :=
  match bs with
  | [] => []
  | b1 :: r1 =>
      let ch := byte_int b1 in
      if ch <? 128 then Decoded ch [b1] :: utf8_chunks r1
      else if ch <? 194 then Malformed [b1] :: utf8_chunks r1
      else if ch <? 224 then
        match r1 with
        | [] => [Malformed [b1]]
        | b2 :: r2 =>
            let ch2 := byte_int b2 in
            if is_continuation ch2
            then Decoded (cp2 ch ch2) [b1; b2] :: utf8_chunks r2
            else Malformed [b1] :: utf8_chunks r1
        end
      else if ch <? 240 then
        match r1 with
        | [] => [Malformed [b1]]
        | b2 :: r2 =>
            let ch2 := byte_int b2 in
            if bad_second3 ch ch2 then Malformed [b1] :: utf8_chunks r1
            else
              match r2 with
              | [] => [Malformed [b1; b2]]
              | b3 :: r3 =>
                  let ch3 := byte_int b3 in
                  if is_continuation ch3
                  then Decoded (cp3 ch ch2 ch3) [b1; b2; b3] :: utf8_chunks r3
                  else Malformed [b1; b2] :: utf8_chunks r2
              end
        end
      else if ch <? 245 then
        match r1 with
        | [] => [Malformed [b1]]
        | b2 :: r2 =>
            let ch2 := byte_int b2 in
            if bad_second4 ch ch2 then Malformed [b1] :: utf8_chunks r1
            else
              match r2 with
              | [] => [Malformed [b1; b2]]
              | b3 :: r3 =>
                  let ch3 := byte_int b3 in
                  if negb (is_continuation ch3)
                  then Malformed [b1; b2] :: utf8_chunks r2
                  else
                    match r3 with
                    | [] => [Malformed [b1; b2; b3]]
                    | b4 :: r4 =>
                        let ch4 := byte_int b4 in
                        if is_continuation ch4
                        then Decoded (cp4 ch ch2 ch3 ch4) [b1; b2; b3; b4]
                               :: utf8_chunks r4
                        else Malformed [b1; b2; b3] :: utf8_chunks r3
                    end
              end
        end
      else Malformed [b1] :: utf8_chunks r1
  end.

Definition decode_utf8_replace (bs : bytes) : str :=
  map chunk_char (utf8_chunks bs).

(** The encoding of one code point, for stating what the decoder accepts. *)
Definition byte_of_int (z : Z) : byte :=
  match Byte.of_N (Z.to_N z) with
  | Some b => b
  | None => x00
  end.

Definition is_scalar (cp : Z) : bool :=
  (0 <=? cp) && (cp <? 1114112) && negb ((55296 <=? cp) && (cp <? 57344)).

Definition utf8_encode (cp : Z) : bytes :=
  if cp <? 128 then [byte_of_int cp]
  else if cp <? 2048 then
    [byte_of_int (192 + cp / 64); byte_of_int (128 + cp mod 64)]
  else if cp <? 65536 then
    [byte_of_int (224 + cp / 4096); byte_of_int (128 + (cp / 64) mod 64);
     byte_of_int (128 + cp mod 64)]
  else
    [byte_of_int (240 + cp / 262144); byte_of_int (128 + (cp / 4096) mod 64);
     byte_of_int (128 + (cp / 64) mod 64); byte_of_int (128 + cp mod 64)].

(** What each piece of the decoder's output is: a decoded piece is the
    encoding of the scalar value it yields, a malformed piece has one to three
    bytes and encodes no code point. *)
Definition chunk_ok (c : chunk) : Prop :=
  match c with
  | Decoded cp src => is_scalar cp = true /\ utf8_encode cp = src
  | Malformed src =>
      (1 <= List.length src <= 3)%nat /\ forall cp, utf8_encode cp <> src
  end.

(** ** The scripts *)

(** The offset that both scripts inspect. *)
Definition ERROR_POS : Z := 1175.

Local Open Scope py_scope.

(** *** check_bytes_correctly.py *)
Module CheckBytesCorrectly.

Definition start (pos : Z) : Z := Z.max 0 (pos - 5).

Definition end_ (pos : Z) (content : bytes) : Z :=
  Z.min (len content) (pos + 15).

(** [chr(byte_val) if 32 <= byte_val <= 126 else f'\\x{byte_val:02x}'] *)
Definition char (byte_val : Z) : py str :=
  if (32 <=? byte_val) && (byte_val <=? 126) then chr byte_val
  else ret (lit "\x" ++ fmt_02x byte_val).

Definition marker (pos i : Z) : str :=
  if i =? pos then lit " <<<<" else lit "".

(** The body of the loop over the window. *)
Definition body (pos : Z) (content : bytes) (i : Z) : py unit :=
  byte_val <- getitem content i ;;
  c <- char byte_val ;;
  print (lit "Position " ++ fmt_wd 4 i ++ lit ": 0x" ++ fmt_02x byte_val
           ++ lit " (" ++ fmt_wd 3 byte_val ++ lit ") '" ++ c ++ lit "'"
           ++ marker pos i).

Definition line_start (pos : Z) (content : bytes) : Z :=
  rfind content newline 0 pos + 1.

Definition line_end (pos : Z) (content : bytes) : Z :=
  let line_end := find content newline pos in
  if line_end =? -1 then len content else line_end.

Definition line_content (pos : Z) (content : bytes) : bytes :=
  slice content (line_start pos content) (line_end pos content).

Definition offset_in_line (pos : Z) (content : bytes) : Z :=
  pos - line_start pos content.

(** The script after the file has been read into [content]. *)
Definition script (pos : Z) (content : bytes) : py unit :=
  print (lit "File length: " ++ fmt_d (len content)) ;;
  print (lit "Bytes around position 1175:") ;;
  for_ (range (start pos) (end_ pos content)) (body pos content) ;;
  print (NL ++ lit "Line containing position 1175:") ;;
  print (lit "'" ++ decode_utf8_replace (line_content pos content) ++ lit "'") ;;
  print (lit "Offset within line: " ++ fmt_d (offset_in_line pos content)).

Definition main (content : bytes) : list str * result unit :=
  run (script ERROR_POS content).

End CheckBytesCorrectly.

(** *** find_error_char.py *)
Module FindErrorChar.

Definition start (pos : Z) : Z := Z.max 0 (pos - 50).

Definition end_ (pos : Z) (content : bytes) : Z :=
  Z.min (len content) (pos + 50).

Definition context (pos : Z) (content : bytes) : bytes :=
  slice content (start pos) (end_ pos content).

(** The body of the loop over the characters around the position. *)
Definition body (pos : Z) (content : bytes) (i : Z) : py unit :=
  b <- getitem content i ;;
  char <- chr b ;;
  if i =? pos
  then print (lit "Position " ++ fmt_d i ++ lit ": '" ++ char
                ++ lit "' <<<< ERROR HERE")
  else print (lit "Position " ++ fmt_d i ++ lit ": '" ++ char ++ lit "'").

(** The script after the file has been read into [content]. *)
Definition script (pos : Z) (content : bytes) : py unit :=
  print (lit "File length: " ++ fmt_d (len content)) ;;
  b <- getitem content pos ;;
  c <- chr b ;;
  print (lit "Character at position 1175: " ++ c) ;;
  b' <- getitem content pos ;;
  print (lit "Byte value: " ++ fmt_d b') ;;
  print (NL ++ lit "Context around position 1175:") ;;
  print (decode_utf8_replace (context pos content)) ;;
  print (NL ++ lit "Characters around position 1175:") ;;
  for_ (range (Z.max 0 (pos - 10)) (Z.min (len content) (pos + 11)))
       (body pos content).

Definition main (content : bytes) : list str * result unit :=
  run (script ERROR_POS content).

End FindErrorChar.

(** ** What the scripts print, as values

    The lists below describe the output of a run without the monad; the
    theorems [check_bytes_run] and [find_error_char_run] show that a run
    prints exactly these lines. *)

(** The byte that [content[i]] reads when [i] is in range. *)
Definition byte_at (content : bytes) (i : Z) : Z :=
  byte_int (nth (Z.to_nat i) content x00).

(** One line of a positional listing: the offset, the byte read there, how
    the byte is shown between the quotes, and whether the line carries the
    marker of the target. *)
Record entry : Set := mk_entry {
  e_offset : Z;
  e_byte : Z;
  e_char : str;
  e_flag : bool
}.

Module CheckBytesReport.
Import CheckBytesCorrectly.

Definition rendered (byte_val : Z) : str :=
  if (32 <=? byte_val) && (byte_val <=? 126) then [byte_val]
  else lit "\x" ++ fmt_02x byte_val.

Definition entry_at (pos : Z) (content : bytes) (i : Z) : entry :=
  mk_entry i (byte_at content i) (rendered (byte_at content i)) (i =? pos).

Definition window_entries (pos : Z) (content : bytes) : list entry :=
  map (entry_at pos content) (range (start pos) (end_ pos content)).

Definition entry_line (e : entry) : str :=
  lit "Position " ++ fmt_wd 4 (e_offset e) ++ lit ": 0x" ++ fmt_02x (e_byte e)
    ++ lit " (" ++ fmt_wd 3 (e_byte e) ++ lit ") '" ++ e_char e ++ lit "'"
    ++ (if e_flag e then lit " <<<<" else lit "").

Definition report (pos : Z) (content : bytes) : list str :=
  [lit "File length: " ++ fmt_d (len content);
   lit "Bytes around position 1175:"]
  ++ map entry_line (window_entries pos content)
  ++ [NL ++ lit "Line containing position 1175:";
      lit "'" ++ decode_utf8_replace (line_content pos content) ++ lit "'";
      lit "Offset within line: " ++ fmt_d (offset_in_line pos content)].

End CheckBytesReport.

(** The lists of this module describe the output of [find_error_char.py]
    only for an offset inside the file, [0 <= pos < len content]
    ([find_error_char_run]); for any other offset the script stops at its
    first indexing and prints no listing ([find_error_char_run_past_end]). *)
Module FindErrorCharReport.
Import FindErrorChar.

Definition entry_at (pos : Z) (content : bytes) (i : Z) : entry :=
  mk_entry i (byte_at content i) [byte_at content i] (i =? pos).

Definition window_entries (pos : Z) (content : bytes) : list entry :=
  map (entry_at pos content)
      (range (Z.max 0 (pos - 10)) (Z.min (len content) (pos + 11))).

Definition entry_line (e : entry) : str :=
  lit "Position " ++ fmt_d (e_offset e) ++ lit ": '" ++ e_char e
    ++ (if e_flag e then lit "' <<<< ERROR HERE" else lit "'").

Definition report (pos : Z) (content : bytes) : list str :=
  [lit "File length: " ++ fmt_d (len content);
   lit "Character at position 1175: " ++ [byte_at content pos];
   lit "Byte value: " ++ fmt_d (byte_at content pos);
   NL ++ lit "Context around position 1175:";
   decode_utf8_replace (context pos content);
   NL ++ lit "Characters around position 1175:"]
  ++ map entry_line (window_entries pos content).

End FindErrorCharReport.

(** [has content k sub]: the byte at offset [k] of [content] is [sub]. *)
Definition has (content : bytes) (k : Z) (sub : byte) : Prop :=
  0 <= k /\ nth_error content (Z.to_nat k) = Some sub.

(** ** Inputs of the examples *)

(** [b"abc\ndef\n"] *)
Definition abc_def : bytes := [x61; x62; x63; x0a; x64; x65; x66; x0a]%byte.

(** [b"hi"] *)
Definition hi : bytes := [x68; x69]%byte.

(** [b"a" * 1200], a file that reaches past every window. *)
Definition long_file : bytes := repeat x61 1200.

(** [b"a" * 1175 + b"\nb"], a file with a newline at offset 1175. *)
Definition newline_at_target : bytes := repeat x61 1175 ++ [x0a; x62].

(** [b"ab" + b"\xe2\x82\xac" * 500], one line of 1502 bytes that decodes to
    502 characters. *)
Definition multibyte_file : bytes :=
  [x61; x62] ++ List.concat (repeat [xe2; x82; xac] 500).

(** ** Readings of the specification *)

(** The window of radius [w] around [t] in a file of [n] bytes, as the
    specification words it: the offsets from [max(0, t - w)] to
    [min(n, t + w)], read with the upper bound included and with the upper
    bound excluded. *)
Definition spec_window_closed (n t w : Z) : list Z :=
  range (Z.max 0 (t - w)) (Z.min n (t + w) + 1).

Definition spec_window_half_open (n t w : Z) : list Z :=
  range (Z.max 0 (t - w)) (Z.min n (t + w)).

(** The nearest newline at or before the offset, as the specification words
    the backward boundary of the containing line. *)
Definition nearest_newline_at_or_before (content : bytes) (pos j : Z) : Prop :=
  j <= pos /\ has content j newline
  /\ forall k, j < k <= pos -> ~ has content k newline.

(** A digit of [{z:02x}]. *)
Definition hexchar (d : Z) : Z := if d <? 10 then 48 + d else 87 + d.

(** [int(s)] for a string of decimal digits, for reading a printed number
    back. *)
Definition int_of_str (s : str) : Z :=
  fold_left (fun acc c => 10 * acc + (c - 48)) s 0.

(** The number of lines of text that the printed strings make on the
    output: [print] ends each string with a line feed, and a line feed inside
    a string ends a line as well. *)
Definition count_lines (out : list str) : Z :=
  fold_right (fun s n => 1 + len (filter (Z.eqb 10) s) + n) 0 out.

(** The codes of the decimal digits, and of the printable ASCII characters. *)
Definition is_digit (c : Z) : Prop := 48 <= c <= 57.

Definition is_printable (c : Z) : Prop := 32 <= c <= 126.

(** ** Properties of the built-ins *)

Lemma len_nonneg {A} (l : list A) : 0 <= len l.
Proof. unfold len. lia. Qed.

Lemma byte_int_range (b : byte) : 0 <= byte_int b < 256.
Proof.
  unfold byte_int. pose proof (Byte.to_N_bounded b). lia.
Qed.

Lemma byte_of_int_int (b : byte) : byte_of_int (byte_int b) = b.
Proof.
  unfold byte_of_int, byte_int. rewrite N2Z.id, Byte.of_to_N. reflexivity.
Qed.

Lemma byte_int_of_int (z : Z) : 0 <= z < 256 -> byte_int (byte_of_int z) = z.
Proof.
  intros Hz. unfold byte_of_int, byte_int.
  destruct (Byte.of_N (Z.to_N z)) as [b|] eqn:E.
  - apply Byte.to_of_N in E. rewrite E. lia.
  - apply Byte.of_N_None_iff in E. lia.
Qed.

Lemma range_nil (a b : Z) : b <= a -> range a b = [].
Proof.
  intros H. unfold range. replace (Z.to_nat (b - a)) with 0%nat by lia.
  reflexivity.
Qed.

Lemma range_cons (a b : Z) : a < b -> range a b = a :: range (a + 1) b.
Proof.
  intros H. unfold range.
  replace (Z.to_nat (b - a)) with (S (Z.to_nat (b - (a + 1)))) by lia.
  cbn [seq map]. f_equal; [lia|].
  rewrite <- seq_shift, map_map. apply map_ext. intros k. lia.
Qed.

Lemma range_In (a b i : Z) : In i (range a b) <-> a <= i < b.
Proof.
  unfold range. rewrite in_map_iff. split.
  - intros [k [<- Hk]]. apply in_seq in Hk. lia.
  - intros H. exists (Z.to_nat (i - a)). split; [lia|].
    apply in_seq. lia.
Qed.

Lemma range_length (a b : Z) : len (range a b) = Z.max 0 (b - a).
Proof.
  unfold len, range. rewrite length_map, length_seq. lia.
Qed.

Lemma range_app (a b c : Z) :
  a <= b <= c -> range a c = range a b ++ range b c.
Proof.
  remember (Z.to_nat (b - a)) as n eqn:En. revert a En.
  induction n as [|n IH]; intros a En H.
  - replace b with a by lia. rewrite (range_nil a a) by lia. reflexivity.
  - rewrite (range_cons a c), (range_cons a b) by lia.
    cbn [app]. f_equal. apply IH; lia.
Qed.

Lemma nth_error_byte_at (content : bytes) (i : Z) :
  0 <= i < len content ->
  exists b, nth_error content (Z.to_nat i) = Some b /\ byte_at content i = byte_int b.
Proof.
  intros H. unfold len in H.
  destruct (nth_error content (Z.to_nat i)) as [b|] eqn:E.
  - exists b. split; [reflexivity|]. unfold byte_at.
    rewrite (nth_error_nth _ _ _ E). reflexivity.
  - apply nth_error_None in E. lia.
Qed.

Lemma byte_at_range (content : bytes) (i : Z) : 0 <= byte_at content i < 256.
Proof. apply byte_int_range. Qed.

Lemma getitem_in_range (content : bytes) (i : Z) (out : list str) :
  0 <= i < len content -> getitem content i out = (out, Ok (byte_at content i)).
Proof.
  intros H. destruct (nth_error_byte_at content i H) as [b [E Hb]].
  unfold getitem. destruct (Z.ltb_spec i 0); [lia|].
  destruct (Z.ltb_spec i 0); [lia|]. rewrite E, Hb. reflexivity.
Qed.

Lemma getitem_past_end (content : bytes) (i : Z) (out : list str) :
  len content <= i -> getitem content i out = (out, Raise IndexError).
Proof.
  intros H. pose proof (len_nonneg content). unfold getitem.
  destruct (Z.ltb_spec i 0); [lia|]. destruct (Z.ltb_spec i 0); [lia|].
  destruct (nth_error content (Z.to_nat i)) eqn:E; [|reflexivity].
  assert (nth_error content (Z.to_nat i) <> None) as Hn by congruence.
  apply nth_error_Some in Hn. unfold len in H. lia.
Qed.

Lemma chr_byte (z : Z) (out : list str) :
  0 <= z < 256 -> chr z out = (out, Ok [z]).
Proof.
  intros H. unfold chr.
  destruct (Z.leb_spec 0 z); [|lia]. destruct (Z.ltb_spec z 1114112); [|lia].
  reflexivity.
Qed.

(** A loop whose body prints one line at each turn and raises nothing prints
    the lines in the order of the sequence. *)
Lemma for_prints {A} (xs : list A) (body : A -> py unit) (f : A -> str) :
  (forall x out, In x xs -> body x out = (out ++ [f x], Ok tt)) ->
  forall out, for_ xs body out = (out ++ map f xs, Ok tt).
Proof.
  induction xs as [|x xs IH]; intros Hb out; cbn [for_ map].
  - unfold ret. rewrite app_nil_r. reflexivity.
  - unfold bind. rewrite (Hb x out) by (left; reflexivity).
    rewrite IH by (intros y o Hy; apply Hb; right; exact Hy).
    rewrite <- app_assoc. reflexivity.
Qed.

(** ** The runs of the scripts *)

Lemma check_bytes_char (z : Z) (out : list str) :
  0 <= z < 256 ->
  CheckBytesCorrectly.char z out = (out, Ok (CheckBytesReport.rendered z)).
Proof.
  intros H. unfold CheckBytesCorrectly.char, CheckBytesReport.rendered.
  destruct ((32 <=? z) && (z <=? 126)); [apply chr_byte; exact H | reflexivity].
Qed.

Lemma check_bytes_body (pos : Z) (content : bytes) (i : Z) (out : list str) :
  0 <= i < len content ->
  CheckBytesCorrectly.body pos content i out
  = (out ++ [CheckBytesReport.entry_line (CheckBytesReport.entry_at pos content i)],
     Ok tt).
Proof.
  intros H. unfold CheckBytesCorrectly.body, bind.
  rewrite (getitem_in_range content i out H).
  rewrite (check_bytes_char _ out (byte_at_range content i)).
  reflexivity.
Qed.

Lemma check_bytes_window_in_range (pos : Z) (content : bytes) (i : Z) :
  In i (range (CheckBytesCorrectly.start pos) (CheckBytesCorrectly.end_ pos content)) ->
  0 <= i < len content.
Proof.
  rewrite range_In. unfold CheckBytesCorrectly.start, CheckBytesCorrectly.end_.
  lia.
Qed.

(** The script raises nothing, whatever the file and the offset, and prints
    the lines of [report]. *)
Lemma check_bytes_run (pos : Z) (content : bytes) :
  run (CheckBytesCorrectly.script pos content)
  = (CheckBytesReport.report pos content, Ok tt).
Proof.
  unfold run, CheckBytesCorrectly.script, bind, print.
  rewrite (for_prints _ _
             (fun i => CheckBytesReport.entry_line
                         (CheckBytesReport.entry_at pos content i))).
  - unfold CheckBytesReport.report, CheckBytesReport.window_entries.
    rewrite map_map. cbn [app]. rewrite <- !app_assoc. reflexivity.
  - intros i out Hi. apply check_bytes_body.
    apply (check_bytes_window_in_range pos). exact Hi.
Qed.

Lemma find_error_char_body (pos : Z) (content : bytes) (i : Z) (out : list str) :
  0 <= i < len content ->
  FindErrorChar.body pos content i out
  = (out ++ [FindErrorCharReport.entry_line
               (FindErrorCharReport.entry_at pos content i)],
     Ok tt).
Proof.
  intros H. unfold FindErrorChar.body, bind.
  rewrite (getitem_in_range content i out H).
  rewrite (chr_byte _ out (byte_at_range content i)).
  unfold FindErrorCharReport.entry_line, FindErrorCharReport.entry_at.
  cbn [e_offset e_char e_flag]. unfold print.
  destruct (i =? pos); rewrite <- ?app_assoc; reflexivity.
Qed.

(** When the offset lies inside the file the script raises nothing and
    prints the lines of [report]. *)
Lemma find_error_char_run (pos : Z) (content : bytes) :
  0 <= pos < len content ->
  run (FindErrorChar.script pos content)
  = (FindErrorCharReport.report pos content, Ok tt).
Proof.
  intros H. unfold run, FindErrorChar.script, bind, print.
  rewrite !(getitem_in_range content pos _ H).
  rewrite (chr_byte _ _ (byte_at_range content pos)).
  rewrite (getitem_in_range content pos _ H).
  rewrite (for_prints _ _
             (fun i => FindErrorCharReport.entry_line
                         (FindErrorCharReport.entry_at pos content i))).
  - unfold FindErrorCharReport.report, FindErrorCharReport.window_entries.
    rewrite map_map. reflexivity.
  - intros i out Hi. apply find_error_char_body.
    apply range_In in Hi. lia.
Qed.

(** When the offset lies at or past the end of the file the first indexing
    raises [IndexError], after the length has been printed. *)
Lemma find_error_char_run_past_end (pos : Z) (content : bytes) :
  len content <= pos ->
  run (FindErrorChar.script pos content)
  = ([lit "File length: " ++ fmt_d (len content)], Raise IndexError).
Proof.
  intros H. unfold run, FindErrorChar.script, bind, print.
  rewrite (getitem_past_end content pos _ H). reflexivity.
Qed.

(** ** Searching for a byte *)

Lemma byte_eqb_reflect (a b : byte) : reflect (a = b) (Byte.eqb a b).
Proof.
  destruct (Byte.eqb a b) eqn:E; constructor.
  - apply Byte.byte_dec_bl. exact E.
  - apply Byte.eqb_false. exact E.
Qed.

Lemma find_index_spec (sub : byte) (l : bytes) (i : Z) :
  0 <= i ->
  (find_index sub l i = -1 /\ forall k, nth_error l k <> Some sub)
  \/ (i <= find_index sub l i < i + len l
      /\ nth_error l (Z.to_nat (find_index sub l i - i)) = Some sub
      /\ forall k, (k < Z.to_nat (find_index sub l i - i))%nat ->
                   nth_error l k <> Some sub).
Proof.
  revert i. induction l as [|b l IH]; intros i Hi; cbn [find_index].
  - left. split; [reflexivity|]. intros [|k]; discriminate.
  - destruct (byte_eqb_reflect b sub) as [->|Hne].
    + right. unfold len. cbn [List.length]. rewrite Z.sub_diag.
      split; [lia|]. split; [reflexivity|]. intros k Hk. cbn in Hk. lia.
    + destruct (IH (i + 1)) as [[E Hno]|[Hr [Hat Hbefore]]]; [lia| |].
      * left. split; [exact E|]. intros [|k]; cbn [nth_error];
          [congruence | apply Hno].
      * right. unfold len in *. cbn [List.length].
        replace (Z.to_nat (find_index sub l (i + 1) - i))
          with (S (Z.to_nat (find_index sub l (i + 1) - (i + 1)))) by lia.
        split; [lia|]. split; [exact Hat|].
        intros [|k] Hk; cbn [nth_error]; [congruence|].
        apply Hbefore. lia.
Qed.

Lemma rfind_index_spec (sub : byte) (l : bytes) (i : Z) :
  0 <= i ->
  (rfind_index sub l i = -1 /\ forall k, nth_error l k <> Some sub)
  \/ (i <= rfind_index sub l i < i + len l
      /\ nth_error l (Z.to_nat (rfind_index sub l i - i)) = Some sub
      /\ forall k, (Z.to_nat (rfind_index sub l i - i) < k)%nat ->
                   nth_error l k <> Some sub).
Proof.
  revert i. induction l as [|b l IH]; intros i Hi; cbn [rfind_index].
  - left. split; [reflexivity|]. intros [|k]; discriminate.
  - destruct (IH (i + 1)) as [[E Hno]|[Hr [Hat Hafter]]]; [lia| |].
    + rewrite E. cbn [Z.eqb Pos.eqb].
      destruct (byte_eqb_reflect b sub) as [->|Hne].
      * right. unfold len. cbn [List.length]. rewrite Z.sub_diag.
        split; [lia|]. split; [reflexivity|].
        intros [|k] Hk; [cbn in Hk; lia|]. cbn [nth_error]. apply Hno.
      * left. split; [reflexivity|]. intros [|k]; cbn [nth_error];
          [congruence | apply Hno].
    + destruct (Z.eqb_spec (rfind_index sub l (i + 1)) (-1)) as [E|_]; [lia|].
      right. unfold len in *. cbn [List.length].
      replace (Z.to_nat (rfind_index sub l (i + 1) - i))
        with (S (Z.to_nat (rfind_index sub l (i + 1) - (i + 1)))) by lia.
      split; [lia|]. split; [exact Hat|].
      intros [|k] Hk; [lia|]. cbn [nth_error]. apply Hafter. lia.
Qed.

Lemma clamp_nonneg (n i : Z) : 0 <= n -> 0 <= i -> clamp_index n i = Z.min i n.
Proof.
  intros Hn Hi. unfold clamp_index. destruct (Z.ltb_spec i 0); [lia|reflexivity].
Qed.

(** [content.find(sub, start)] for a start that is not negative: the lowest
    offset from [start] on that holds [sub], or [-1]. *)
Lemma find_spec (content : bytes) (sub : byte) (start : Z) :
  0 <= start ->
  (find content sub start = -1
   /\ forall k, start <= k -> ~ has content k sub)
  \/ (start <= find content sub start < len content
      /\ has content (find content sub start) sub
      /\ forall k, start <= k < find content sub start -> ~ has content k sub).
Proof.
  intros Hs. pose proof (len_nonneg content) as Hl. unfold find.
  rewrite (clamp_nonneg _ _ Hl Hs).
  set (s := Z.min start (len content)).
  assert (0 <= s <= len content) as Hsr by (subst s; lia).
  destruct (find_index_spec sub (skipn (Z.to_nat s) content) s)
    as [[E Hno]|[Hr [Hat Hbefore]]]; [lia| |].
  - left. split; [exact E|]. intros k Hk [Hk0 Hk'].
    apply (Hno (Z.to_nat k - Z.to_nat s)%nat).
    rewrite nth_error_skipn.
    replace (Z.to_nat s + (Z.to_nat k - Z.to_nat s))%nat with (Z.to_nat k)
      by (subst s; lia).
    exact Hk'.
  - right. set (r := find_index sub (skipn (Z.to_nat s) content) s) in *.
    unfold len in Hr. rewrite length_skipn in Hr.
    rewrite nth_error_skipn in Hat.
    replace (Z.to_nat s + Z.to_nat (r - s))%nat with (Z.to_nat r) in Hat by lia.
    assert (start <= r) as Hsr'.
    { subst s. destruct (Z.le_ge_cases start (len content)); [lia|].
      unfold len in *. lia. }
    split; [unfold len in *; lia|]. split; [split; [lia | exact Hat]|].
    intros k Hk [Hk0 Hk'].
    apply (Hbefore (Z.to_nat k - Z.to_nat s)%nat); [subst s; lia|].
    rewrite nth_error_skipn.
    replace (Z.to_nat s + (Z.to_nat k - Z.to_nat s))%nat with (Z.to_nat k)
      by (subst s; lia).
    exact Hk'.
Qed.

Lemma has_lt_len (content : bytes) (k : Z) (sub : byte) :
  has content k sub -> 0 <= k < len content.
Proof.
  intros [Hk Hat]. split; [exact Hk|].
  assert (nth_error content (Z.to_nat k) <> None) as Hn by congruence.
  apply nth_error_Some in Hn. unfold len. lia.
Qed.

(** [content.rfind(sub, 0, end)] for an end that is not negative: the highest
    offset below [end] that holds [sub], or [-1]. *)
Lemma rfind_spec (content : bytes) (sub : byte) (e : Z) :
  0 <= e ->
  (rfind content sub 0 e = -1
   /\ forall k, k < e -> ~ has content k sub)
  \/ (0 <= rfind content sub 0 e < e
      /\ has content (rfind content sub 0 e) sub
      /\ forall k, rfind content sub 0 e < k < e -> ~ has content k sub).
Proof.
  intros He. pose proof (len_nonneg content) as Hl. unfold rfind.
  rewrite (clamp_nonneg _ 0 Hl) by lia. rewrite (clamp_nonneg _ e Hl He).
  replace (Z.min 0 (len content)) with 0 by lia.
  change (Z.to_nat 0) with 0%nat. cbn [skipn]. rewrite Z.sub_0_r.
  set (n := Z.to_nat (Z.min e (len content))).
  assert (forall k, nth_error (firstn n content) k
                    = if (k <? n)%nat then nth_error content k else None) as Hf
      by (intros k; apply nth_error_firstn).
  destruct (rfind_index_spec sub (firstn n content) 0)
    as [[E Hno]|[Hr [Hat Hafter]]]; [lia| |].
  - left. split; [exact E|]. intros k Hk Hhas.
    pose proof (has_lt_len _ _ _ Hhas) as Hkr. destruct Hhas as [_ Hhas].
    apply (Hno (Z.to_nat k)). rewrite Hf.
    destruct (Nat.ltb_spec (Z.to_nat k) n); [exact Hhas | subst n; lia].
  - right. set (r := rfind_index sub (firstn n content) 0) in *.
    unfold len in Hr. rewrite length_firstn in Hr.
    rewrite Z.sub_0_r in Hat, Hafter. rewrite Hf in Hat.
    destruct (Nat.ltb_spec (Z.to_nat r) n) as [Hlt|]; [|discriminate].
    split; [subst n; lia|]. split; [split; [lia | exact Hat]|].
    intros k Hk Hhas.
    pose proof (has_lt_len _ _ _ Hhas) as Hkr. destruct Hhas as [_ Hhas].
    apply (Hafter (Z.to_nat k)); [lia|]. rewrite Hf.
    destruct (Nat.ltb_spec (Z.to_nat k) n); [exact Hhas | subst n; lia].
Qed.

(** A slice with bounds in order inside the sequence. *)
Lemma slice_inside (content : bytes) (a b : Z) :
  0 <= a <= b -> b <= len content ->
  slice content a b = firstn (Z.to_nat (b - a)) (skipn (Z.to_nat a) content)
  /\ len (slice content a b) = b - a.
Proof.
  intros Hab Hb. pose proof (len_nonneg content) as Hl. unfold slice.
  rewrite !clamp_nonneg by lia.
  replace (Z.min a (len content)) with a by lia.
  replace (Z.min b (len content)) with b by lia.
  split; [reflexivity|]. unfold len in *.
  rewrite length_firstn, length_skipn. lia.
Qed.

Lemma slice_nth_error (content : bytes) (a b : Z) (k : nat) :
  0 <= a <= b -> b <= len content ->
  nth_error (slice content a b) k
  = if (Z.of_nat k <? b - a) then nth_error content (Z.to_nat (a + Z.of_nat k))
    else None.
Proof.
  intros Hab Hb. rewrite (proj1 (slice_inside content a b Hab Hb)).
  rewrite nth_error_firstn, nth_error_skipn.
  destruct (Nat.ltb_spec k (Z.to_nat (b - a))); destruct (Z.ltb_spec (Z.of_nat k) (b - a));
    try lia; [|reflexivity].
  f_equal. lia.
Qed.

(** ** The line around the offset *)

Section LineBoundaries.
Import CheckBytesCorrectly.

Variable pos : Z.
Variable content : bytes.
Hypothesis pos_nonneg : 0 <= pos.

Lemma line_start_spec :
  0 <= line_start pos content <= pos
  /\ line_start pos content <= len content
  /\ (forall k, line_start pos content <= k < pos -> ~ has content k newline)
  /\ ((line_start pos content = 0
       /\ forall k, k < pos -> ~ has content k newline)
      \/ (0 < line_start pos content
          /\ has content (line_start pos content - 1) newline)).
Proof.
  unfold line_start.
  destruct (rfind_spec content newline pos pos_nonneg)
    as [[E Hno]|[Hr [Hat Hafter]]].
  - rewrite E. pose proof (len_nonneg content).
    split; [lia|]. split; [lia|]. split; [intros k Hk; apply Hno; lia|].
    left. split; [reflexivity | exact Hno].
  - pose proof (has_lt_len _ _ _ Hat).
    split; [lia|]. split; [lia|].
    split; [intros k Hk; apply Hafter; lia|].
    right. split; [lia|]. rewrite Z.add_simpl_r. exact Hat.
Qed.

Lemma line_end_spec :
  line_end pos content <= len content
  /\ (forall k, pos <= k < line_end pos content -> ~ has content k newline)
  /\ ((line_end pos content = len content
       /\ forall k, pos <= k -> ~ has content k newline)
      \/ (pos <= line_end pos content < len content
          /\ has content (line_end pos content) newline)).
Proof.
  unfold line_end.
  destruct (find_spec content newline pos pos_nonneg)
    as [[E Hno]|[Hr [Hat Hbefore]]].
  - rewrite E. cbn [Z.eqb Pos.eqb].
    split; [lia|]. split; [intros k Hk; apply Hno; lia|].
    left. split; [reflexivity | exact Hno].
  - destruct (Z.eqb_spec (find content newline pos) (-1)) as [E|_]; [lia|].
    split; [lia|]. split; [exact Hbefore|].
    right. split; [lia | exact Hat].
Qed.

Lemma line_bounds :
  0 <= line_start pos content <= line_end pos content
  /\ line_end pos content <= len content.
Proof.
  destruct line_start_spec as [Hs [Hsl _]].
  destruct line_end_spec as [Hel [_ [[E _]|[He _]]]]; lia.
Qed.

Lemma line_content_nth_error (k : nat) :
  nth_error (line_content pos content) k
  = if Z.of_nat k <? line_end pos content - line_start pos content
    then nth_error content (Z.to_nat (line_start pos content + Z.of_nat k))
    else None.
Proof.
  destruct line_bounds as [H1 H2]. unfold line_content.
  apply slice_nth_error; assumption.
Qed.

Lemma line_content_len :
  len (line_content pos content)
  = line_end pos content - line_start pos content.
Proof.
  destruct line_bounds as [H1 H2]. unfold line_content.
  apply slice_inside; assumption.
Qed.

Lemma line_content_no_newline : ~ In newline (line_content pos content).
Proof.
  intros Hin. apply In_nth_error in Hin. destruct Hin as [k Hk].
  rewrite line_content_nth_error in Hk.
  destruct (Z.ltb_spec (Z.of_nat k)
              (line_end pos content - line_start pos content)) as [Hlt|];
    [|discriminate].
  destruct line_start_spec as [Hs [_ [Hbefore _]]].
  destruct line_end_spec as [_ [Hafter _]].
  set (j := line_start pos content + Z.of_nat k) in *.
  assert (has content j newline) as Hj by (split; [subst j; lia | exact Hk]).
  destruct (Z.lt_ge_cases j pos).
  - apply (Hbefore j); [subst j; lia | exact Hj].
  - apply (Hafter j); [subst j; lia | exact Hj].
Qed.

End LineBoundaries.

(** ** The decoder *)

Lemma lor_shiftl_add (a b n : Z) :
  0 <= n -> 0 <= b < 2 ^ n -> Z.lor (Z.shiftl a n) b = a * 2 ^ n + b.
Proof.
  intros Hn Hb.
  assert (Z.land (Z.shiftl a n) b = 0) as Hdisj.
  { apply Z.bits_inj'. intros m Hm. rewrite Z.land_spec, Z.bits_0.
    destruct (Z.lt_ge_cases m n) as [Hlt|Hge].
    - rewrite Z.shiftl_spec_low by exact Hlt. reflexivity.
    - rewrite <- (Z.mod_small b (2 ^ n)) by exact Hb.
      rewrite Z.mod_pow2_bits_high by lia. apply andb_false_r. }
  rewrite <- Z.lxor_lor by exact Hdisj.
  rewrite <- Z.add_nocarry_lxor by exact Hdisj.
  rewrite Z.shiftl_mul_pow2 by exact Hn. reflexivity.
Qed.

Lemma land_low (z n : Z) : 0 <= n -> Z.land z (Z.ones n) = z mod 2 ^ n.
Proof. intros Hn. apply Z.land_ones. exact Hn. Qed.

Ltac zlia := Z.div_mod_to_equations; lia.

Lemma cp2_value (ch ch2 : Z) :
  192 <= ch < 224 -> 128 <= ch2 < 192 ->
  cp2 ch ch2 = (ch - 192) * 64 + (ch2 - 128).
Proof.
  intros H1 H2. unfold cp2.
  change 31 with (Z.ones 5). change 63 with (Z.ones 6).
  rewrite !land_low by lia.
  change (2 ^ 5) with 32. change (2 ^ 6) with 64.
  rewrite lor_shiftl_add by (change (2 ^ 6) with 64; zlia).
  change (2 ^ 6) with 64. zlia.
Qed.

Lemma shiftl_shiftl_6 (a k : Z) :
  0 <= k -> Z.shiftl a (k + 6) = Z.shiftl (Z.shiftl a k) 6.
Proof. intros Hk. rewrite Z.shiftl_shiftl by exact Hk. reflexivity. Qed.

Lemma cp3_value (ch ch2 ch3 : Z) :
  224 <= ch < 240 -> 128 <= ch2 < 192 -> 128 <= ch3 < 192 ->
  cp3 ch ch2 ch3 = (ch - 224) * 4096 + (ch2 - 128) * 64 + (ch3 - 128).
Proof.
  intros H1 H2 H3. unfold cp3.
  change 15 with (Z.ones 4). change 63 with (Z.ones 6).
  rewrite !land_low by lia.
  change (2 ^ 4) with 16. change (2 ^ 6) with 64.
  change 12 with (6 + 6). rewrite (shiftl_shiftl_6 _ 6) by lia.
  rewrite <- Z.shiftl_lor.
  rewrite (lor_shiftl_add (ch mod 16) (ch2 mod 64) 6)
    by (change (2 ^ 6) with 64; zlia).
  rewrite lor_shiftl_add by (change (2 ^ 6) with 64; zlia).
  change (2 ^ 6) with 64. zlia.
Qed.

Lemma cp4_value (ch ch2 ch3 ch4 : Z) :
  240 <= ch < 248 -> 128 <= ch2 < 192 -> 128 <= ch3 < 192 ->
  128 <= ch4 < 192 ->
  cp4 ch ch2 ch3 ch4
  = (ch - 240) * 262144 + (ch2 - 128) * 4096 + (ch3 - 128) * 64 + (ch4 - 128).
Proof.
  intros H1 H2 H3 H4. unfold cp4.
  change 7 with (Z.ones 3). change 63 with (Z.ones 6).
  rewrite !land_low by lia.
  change (2 ^ 3) with 8. change (2 ^ 6) with 64.
  change 18 with (6 + 6 + 6). change 12 with (6 + 6).
  rewrite (shiftl_shiftl_6 _ (6 + 6)) by lia.
  rewrite !(shiftl_shiftl_6 _ 6) by lia.
  rewrite <- !Z.shiftl_lor.
  rewrite (lor_shiftl_add (ch mod 8) (ch2 mod 64) 6)
    by (change (2 ^ 6) with 64; zlia).
  rewrite (lor_shiftl_add _ (ch3 mod 64) 6)
    by (change (2 ^ 6) with 64; zlia).
  rewrite lor_shiftl_add by (change (2 ^ 6) with 64; zlia).
  change (2 ^ 6) with 64. zlia.
Qed.

Lemma is_scalar_true (cp : Z) :
  0 <= cp < 55296 \/ 57344 <= cp < 1114112 -> is_scalar cp = true.
Proof.
  intros H. unfold is_scalar.
  destruct (Z.leb_spec 0 cp); [|lia].
  destruct (Z.ltb_spec cp 1114112); [|lia].
  destruct (Z.leb_spec 55296 cp); [|reflexivity].
  destruct (Z.ltb_spec cp 57344); [lia|reflexivity].
Qed.

Lemma is_continuation_true (ch : Z) :
  is_continuation ch = true <-> 128 <= ch < 192.
Proof.
  unfold is_continuation. rewrite andb_true_iff, Z.leb_le, Z.ltb_lt.
  reflexivity.
Qed.

Lemma byte_of_int_eq (z : Z) (b : byte) : z = byte_int b -> byte_of_int z = b.
Proof. intros ->. apply byte_of_int_int. Qed.

(** The lead byte of an encoding tells its length. *)
Lemma utf8_encode_shape (cp : Z) :
  (exists b, utf8_encode cp = [b] /\ byte_int b < 128)
  \/ (exists b b2, utf8_encode cp = [b; b2] /\ byte_int b < 224)
  \/ (exists b b2 b3, utf8_encode cp = [b; b2; b3] /\ byte_int b < 240)
  \/ (exists b b2 b3 b4, utf8_encode cp = [b; b2; b3; b4]).
Proof.
  unfold utf8_encode.
  destruct (Z.ltb_spec cp 128) as [H1|H1].
  { left. eexists. split; [reflexivity|].
    destruct (Z.lt_ge_cases cp 0) as [Hn|Hn].
    - destruct cp; try lia. cbn. lia.
    - rewrite byte_int_of_int; lia. }
  destruct (Z.ltb_spec cp 2048) as [H2|H2].
  { right. left. do 2 eexists. split; [reflexivity|].
    rewrite byte_int_of_int; zlia. }
  destruct (Z.ltb_spec cp 65536) as [H3|H3].
  { right. right. left. do 3 eexists. split; [reflexivity|].
    rewrite byte_int_of_int; zlia. }
  right. right. right. do 4 eexists. reflexivity.
Qed.

Lemma malformed1_ok (b1 : byte) :
  128 <= byte_int b1 -> chunk_ok (Malformed [b1]).
Proof.
  intros H. split; [cbn; lia|]. intros cp E.
  destruct (utf8_encode_shape cp)
    as [[b [E' Hb]]|[[b [b2 [E' Hb]]]|[[b [b2 [b3 [E' Hb]]]]|[b [b2 [b3 [b4 E']]]]]]];
    rewrite E' in E; inversion E; subst; lia.
Qed.

Lemma malformed2_ok (b1 b2 : byte) :
  224 <= byte_int b1 -> chunk_ok (Malformed [b1; b2]).
Proof.
  intros H. split; [cbn; lia|]. intros cp E.
  destruct (utf8_encode_shape cp)
    as [[b [E' Hb]]|[[b [c2 [E' Hb]]]|[[b [c2 [c3 [E' Hb]]]]|[b [c2 [c3 [c4 E']]]]]]];
    rewrite E' in E; inversion E; subst; lia.
Qed.

Lemma malformed3_ok (b1 b2 b3 : byte) :
  240 <= byte_int b1 -> chunk_ok (Malformed [b1; b2; b3]).
Proof.
  intros H. split; [cbn; lia|]. intros cp E.
  destruct (utf8_encode_shape cp)
    as [[b [E' Hb]]|[[b [c2 [E' Hb]]]|[[b [c2 [c3 [E' Hb]]]]|[b [c2 [c3 [c4 E']]]]]]];
    rewrite E' in E; inversion E; subst; lia.
Qed.

Lemma decoded1_ok (b1 : byte) :
  byte_int b1 < 128 -> chunk_ok (Decoded (byte_int b1) [b1]).
Proof.
  intros H. pose proof (byte_int_range b1). split.
  - apply is_scalar_true. lia.
  - unfold utf8_encode. destruct (Z.ltb_spec (byte_int b1) 128); [|lia].
    rewrite byte_of_int_int. reflexivity.
Qed.

Lemma decoded2_ok (b1 b2 : byte) :
  194 <= byte_int b1 < 224 -> is_continuation (byte_int b2) = true ->
  chunk_ok (Decoded (cp2 (byte_int b1) (byte_int b2)) [b1; b2]).
Proof.
  intros H1 H2. apply is_continuation_true in H2.
  rewrite cp2_value by lia.
  set (cp := (byte_int b1 - 192) * 64 + (byte_int b2 - 128)).
  assert (128 <= cp < 2048) as Hcp by (subst cp; lia).
  split; [apply is_scalar_true; lia|].
  unfold utf8_encode.
  destruct (Z.ltb_spec cp 128); [lia|]. destruct (Z.ltb_spec cp 2048); [|lia].
  f_equal; [|f_equal]; apply byte_of_int_eq; subst cp; zlia.
Qed.

Lemma decoded3_ok (b1 b2 b3 : byte) :
  224 <= byte_int b1 < 240 ->
  bad_second3 (byte_int b1) (byte_int b2) = false ->
  is_continuation (byte_int b3) = true ->
  chunk_ok (Decoded (cp3 (byte_int b1) (byte_int b2) (byte_int b3)) [b1; b2; b3]).
Proof.
  intros H1 H2 H3. apply is_continuation_true in H3.
  unfold bad_second3 in H2. apply orb_false_iff in H2. destruct H2 as [H2 H2'].
  apply negb_false_iff, is_continuation_true in H2.
  rewrite cp3_value by lia.
  set (cp := (byte_int b1 - 224) * 4096 + (byte_int b2 - 128) * 64
             + (byte_int b3 - 128)).
  assert (2048 <= cp < 55296 \/ 57344 <= cp < 65536) as Hcp.
  { destruct (Z.ltb_spec (byte_int b2) 160);
      [apply Z.eqb_neq in H2' | apply Z.eqb_neq in H2']; subst cp; lia. }
  split; [apply is_scalar_true; lia|].
  unfold utf8_encode.
  destruct (Z.ltb_spec cp 128); [lia|]. destruct (Z.ltb_spec cp 2048); [lia|].
  destruct (Z.ltb_spec cp 65536); [|lia].
  f_equal; [|f_equal; [|f_equal]]; apply byte_of_int_eq; subst cp; zlia.
Qed.

Lemma decoded4_ok (b1 b2 b3 b4 : byte) :
  240 <= byte_int b1 < 245 ->
  bad_second4 (byte_int b1) (byte_int b2) = false ->
  is_continuation (byte_int b3) = true ->
  is_continuation (byte_int b4) = true ->
  chunk_ok (Decoded (cp4 (byte_int b1) (byte_int b2) (byte_int b3) (byte_int b4))
                    [b1; b2; b3; b4]).
Proof.
  intros H1 H2 H3 H4. apply is_continuation_true in H3, H4.
  unfold bad_second4 in H2. apply orb_false_iff in H2. destruct H2 as [H2 H2'].
  apply negb_false_iff, is_continuation_true in H2.
  rewrite cp4_value by lia.
  set (cp := (byte_int b1 - 240) * 262144 + (byte_int b2 - 128) * 4096
             + (byte_int b3 - 128) * 64 + (byte_int b4 - 128)).
  assert (65536 <= cp < 1114112) as Hcp.
  { destruct (Z.ltb_spec (byte_int b2) 144);
      [apply Z.eqb_neq in H2' | apply Z.eqb_neq in H2']; subst cp; lia. }
  split; [apply is_scalar_true; lia|].
  unfold utf8_encode.
  destruct (Z.ltb_spec cp 128); [lia|]. destruct (Z.ltb_spec cp 2048); [lia|].
  destruct (Z.ltb_spec cp 65536); [lia|].
  f_equal; [|f_equal; [|f_equal; [|f_equal]]]; apply byte_of_int_eq; subst cp; zlia.
Qed.

Local Ltac step_done :=
  do 2 eexists; split; [reflexivity | split; [reflexivity|]].

(** One step of the decoder: it takes a non-empty piece off the front of the
    data and continues on what is left. *)
Lemma utf8_chunks_step (b1 : byte) (r1 : bytes) :
  exists c rest,
    utf8_chunks (b1 :: r1) = c :: utf8_chunks rest
    /\ b1 :: r1 = chunk_src c ++ rest
    /\ chunk_ok c.
Proof.
  pose proof (byte_int_range b1) as Hb1.
  cbn [utf8_chunks].
  destruct (Z.ltb_spec (byte_int b1) 128) as [H1|H1].
  { step_done. apply decoded1_ok. exact H1. }
  destruct (Z.ltb_spec (byte_int b1) 194) as [H2|H2].
  { step_done. apply malformed1_ok. exact H1. }
  destruct (Z.ltb_spec (byte_int b1) 224) as [H3|H3].
  { destruct r1 as [|b2 r2].
    - exists (Malformed [b1]), []. split; [reflexivity | split; [reflexivity|]].
      apply malformed1_ok. exact H1.
    - destruct (is_continuation (byte_int b2)) eqn:E2; step_done.
      + apply decoded2_ok; [lia | exact E2].
      + apply malformed1_ok. exact H1. }
  destruct (Z.ltb_spec (byte_int b1) 240) as [H4|H4].
  { destruct r1 as [|b2 r2].
    - exists (Malformed [b1]), []. split; [reflexivity | split; [reflexivity|]].
      apply malformed1_ok. exact H1.
    - destruct (bad_second3 (byte_int b1) (byte_int b2)) eqn:E2.
      + step_done. apply malformed1_ok. exact H1.
      + destruct r2 as [|b3 r3].
        * exists (Malformed [b1; b2]), [].
          split; [reflexivity | split; [reflexivity|]].
          apply malformed2_ok. exact H3.
        * destruct (is_continuation (byte_int b3)) eqn:E3; step_done.
          -- apply decoded3_ok; [lia | exact E2 | exact E3].
          -- apply malformed2_ok. exact H3. }
  destruct (Z.ltb_spec (byte_int b1) 245) as [H5|H5].
  { destruct r1 as [|b2 r2].
    - exists (Malformed [b1]), []. split; [reflexivity | split; [reflexivity|]].
      apply malformed1_ok. exact H1.
    - destruct (bad_second4 (byte_int b1) (byte_int b2)) eqn:E2.
      + step_done. apply malformed1_ok. exact H1.
      + destruct r2 as [|b3 r3].
        * exists (Malformed [b1; b2]), [].
          split; [reflexivity | split; [reflexivity|]].
          apply malformed2_ok. exact H3.
        * destruct (is_continuation (byte_int b3)) eqn:E3; cbn [negb].
          -- destruct r3 as [|b4 r4].
             ++ exists (Malformed [b1; b2; b3]), [].
                split; [reflexivity | split; [reflexivity|]].
                apply malformed3_ok. exact H4.
             ++ destruct (is_continuation (byte_int b4)) eqn:E4; step_done.
                ** apply decoded4_ok; [lia | exact E2 | exact E3 | exact E4].
                ** apply malformed3_ok. exact H4.
          -- step_done. apply malformed2_ok. exact H3. }
  step_done. apply malformed1_ok. exact H1.
Qed.

(** The pieces partition the data, in order, and each is what [chunk_ok]
    says. *)
Lemma utf8_chunks_sound (bs : bytes) :
  List.concat (map chunk_src (utf8_chunks bs)) = bs
  /\ Forall chunk_ok (utf8_chunks bs).
Proof.
  remember (List.length bs) as n eqn:En.
  revert bs En. induction n as [n IH] using lt_wf_ind. intros bs En.
  destruct bs as [|b1 r1]; [split; [reflexivity | constructor]|].
  destruct (utf8_chunks_step b1 r1) as [c [rest [Estep [Esrc Hok]]]].
  assert (List.length rest < n)%nat as Hlt.
  { subst n. rewrite Esrc, length_app.
    destruct c as [cp src|src]; cbn [chunk_src chunk_ok] in *.
    - destruct Hok as [_ Henc]. subst src.
      destruct (utf8_encode_shape cp)
        as [[b [E' _]]|[[b [c2 [E' _]]]|[[b [c2 [c3 [E' _]]]]|[b [c2 [c3 [c4 E']]]]]]];
        rewrite E'; cbn; lia.
    - destruct Hok as [Hlen _]. lia. }
  destruct (IH _ Hlt rest eq_refl) as [IHc IHok].
  rewrite Estep. cbn [map List.concat]. split.
  - rewrite IHc. symmetry. exact Esrc.
  - constructor; assumption.
Qed.

Lemma decode_utf8_replace_ascii (bs : bytes) :
  Forall (fun b => byte_int b < 128) bs ->
  decode_utf8_replace bs = map byte_int bs.
Proof.
  unfold decode_utf8_replace.
  induction 1 as [|b bs Hb _ IH]; [reflexivity|].
  cbn [utf8_chunks]. destruct (Z.ltb_spec (byte_int b) 128); [|lia].
  cbn [map chunk_char]. rewrite IH. reflexivity.
Qed.

Lemma is_scalar_range (cp : Z) :
  is_scalar cp = true -> 0 <= cp < 55296 \/ 57344 <= cp < 1114112.
Proof.
  unfold is_scalar. rewrite !andb_true_iff, negb_true_iff, andb_false_iff.
  rewrite Z.leb_le, Z.ltb_lt, Z.leb_gt, Z.ltb_ge. lia.
Qed.

Lemma is_continuation_low6 (z : Z) : is_continuation (128 + z mod 64) = true.
Proof. apply is_continuation_true. zlia. Qed.

(** Well-formed text is decoded to itself: the encoding of a scalar value at
    the front of the data is decoded to that value. *)
Lemma utf8_chunks_encode (cp : Z) (rest : bytes) :
  is_scalar cp = true ->
  utf8_chunks (utf8_encode cp ++ rest)
  = Decoded cp (utf8_encode cp) :: utf8_chunks rest.
Proof.
  intros Hs. apply is_scalar_range in Hs. unfold utf8_encode.
  destruct (Z.ltb_spec cp 128) as [H1|H1].
  { cbn [app utf8_chunks]. rewrite byte_int_of_int by lia.
    destruct (Z.ltb_spec cp 128); [reflexivity | lia]. }
  destruct (Z.ltb_spec cp 2048) as [H2|H2].
  { cbn [app utf8_chunks]. rewrite !byte_int_of_int by zlia.
    destruct (Z.ltb_spec (192 + cp / 64) 128); [zlia|].
    destruct (Z.ltb_spec (192 + cp / 64) 194); [zlia|].
    destruct (Z.ltb_spec (192 + cp / 64) 224); [|zlia].
    rewrite is_continuation_low6. rewrite cp2_value by zlia.
    do 2 f_equal. zlia. }
  destruct (Z.ltb_spec cp 65536) as [H3|H3].
  { cbn [app utf8_chunks]. rewrite !byte_int_of_int by zlia.
    destruct (Z.ltb_spec (224 + cp / 4096) 128); [zlia|].
    destruct (Z.ltb_spec (224 + cp / 4096) 194); [zlia|].
    destruct (Z.ltb_spec (224 + cp / 4096) 224); [zlia|].
    destruct (Z.ltb_spec (224 + cp / 4096) 240); [|zlia].
    assert (bad_second3 (224 + cp / 4096) (128 + (cp / 64) mod 64) = false)
      as ->.
    { unfold bad_second3. rewrite is_continuation_low6. cbn [negb orb].
      destruct (Z.ltb_spec (128 + (cp / 64) mod 64) 160);
        apply Z.eqb_neq; zlia. }
    rewrite is_continuation_low6. rewrite cp3_value by zlia.
    do 2 f_equal. zlia. }
  cbn [app utf8_chunks]. rewrite !byte_int_of_int by zlia.
  destruct (Z.ltb_spec (240 + cp / 262144) 128); [zlia|].
  destruct (Z.ltb_spec (240 + cp / 262144) 194); [zlia|].
  destruct (Z.ltb_spec (240 + cp / 262144) 224); [zlia|].
  destruct (Z.ltb_spec (240 + cp / 262144) 240); [zlia|].
  destruct (Z.ltb_spec (240 + cp / 262144) 245); [|zlia].
  assert (bad_second4 (240 + cp / 262144) (128 + (cp / 4096) mod 64) = false)
    as ->.
  { unfold bad_second4. rewrite is_continuation_low6. cbn [negb orb].
    destruct (Z.ltb_spec (128 + (cp / 4096) mod 64) 144);
      apply Z.eqb_neq; zlia. }
  rewrite !is_continuation_low6. cbn [negb]. rewrite cp4_value by zlia.
  do 2 f_equal. zlia.
Qed.

Lemma decode_utf8_replace_valid (cps : list Z) :
  Forall (fun cp => is_scalar cp = true) cps ->
  decode_utf8_replace (flat_map utf8_encode cps) = cps.
Proof.
  unfold decode_utf8_replace.
  induction 1 as [|cp cps Hcp _ IH]; [reflexivity|].
  cbn [flat_map]. rewrite utf8_chunks_encode by exact Hcp.
  cbn [map chunk_char]. rewrite IH. reflexivity.
Qed.

(** ** The positional listings *)

Lemma range_sorted (a b : Z) : StronglySorted Z.lt (range a b).
Proof.
  remember (Z.to_nat (b - a)) as n eqn:En. revert a En.
  induction n as [|n IH]; intros a En.
  - rewrite range_nil by lia. constructor.
  - rewrite range_cons by lia. constructor; [apply IH; lia|].
    apply Forall_forall. intros i Hi. apply range_In in Hi. lia.
Qed.

Lemma range_inj (a b c d : Z) :
  a < b -> range a b = range c d -> a = c /\ b = d.
Proof.
  intros Hab E.
  assert (len (range a b) = len (range c d)) as El by (rewrite E; reflexivity).
  rewrite !range_length in El.
  assert (c < d) as Hcd by lia.
  rewrite (range_cons a b Hab), (range_cons c d Hcd) in E.
  inversion E. lia.
Qed.

Lemma filter_none {A} (f : A -> bool) (l : list A) :
  (forall x, In x l -> f x = false) -> filter f l = [].
Proof.
  induction l as [|x l IH]; intros H; [reflexivity|].
  cbn [filter]. rewrite (H x) by (left; reflexivity).
  apply IH. intros y Hy. apply H. right. exact Hy.
Qed.

Lemma filter_map_swap {A B} (f : B -> bool) (g : A -> B) (l : list A) :
  filter f (map g l) = map g (filter (fun x => f (g x)) l).
Proof.
  induction l as [|x l IH]; [reflexivity|].
  cbn [map filter]. destruct (f (g x)); cbn [map]; rewrite IH; reflexivity.
Qed.

(** The offset [pos] occurs once in a range that contains it and not at all
    in a range that does not. *)
Lemma filter_target_range (pos a b : Z) :
  filter (fun i => i =? pos) (range a b)
  = if (a <=? pos) && (pos <? b) then [pos] else [].
Proof.
  destruct (Z.leb_spec a pos) as [Ha|Ha]; cbn [andb].
  - destruct (Z.ltb_spec pos b) as [Hb|Hb].
    + rewrite (range_app a pos b) by lia. rewrite (range_cons pos b) by lia.
      rewrite filter_app. cbn [filter]. rewrite Z.eqb_refl.
      rewrite !filter_none; [reflexivity| |];
        intros i Hi; apply range_In in Hi; apply Z.eqb_neq; lia.
    + apply filter_none. intros i Hi. apply range_In in Hi.
      apply Z.eqb_neq. lia.
  - apply filter_none. intros i Hi. apply range_In in Hi.
    apply Z.eqb_neq. lia.
Qed.

Lemma check_bytes_offsets (pos : Z) (content : bytes) :
  map e_offset (CheckBytesReport.window_entries pos content)
  = range (Z.max 0 (pos - 5)) (Z.min (len content) (pos + 15)).
Proof.
  unfold CheckBytesReport.window_entries. rewrite map_map. cbn [e_offset].
  apply map_id.
Qed.

Lemma find_error_char_offsets (pos : Z) (content : bytes) :
  map e_offset (FindErrorCharReport.window_entries pos content)
  = range (Z.max 0 (pos - 10)) (Z.min (len content) (pos + 11)).
Proof.
  unfold FindErrorCharReport.window_entries. rewrite map_map. cbn [e_offset].
  apply map_id.
Qed.

Lemma check_bytes_flagged (pos : Z) (content : bytes) :
  filter e_flag (CheckBytesReport.window_entries pos content)
  = if (0 <=? pos) && (pos <? len content)
    then [CheckBytesReport.entry_at pos content pos] else [].
Proof.
  unfold CheckBytesReport.window_entries. rewrite filter_map_swap.
  cbn [CheckBytesReport.entry_at e_flag]. rewrite filter_target_range.
  unfold CheckBytesCorrectly.start, CheckBytesCorrectly.end_.
  pose proof (len_nonneg content).
  destruct (Z.leb_spec (Z.max 0 (pos - 5)) pos);
    destruct (Z.ltb_spec pos (Z.min (len content) (pos + 15)));
    destruct (Z.leb_spec 0 pos); destruct (Z.ltb_spec pos (len content));
    cbn [andb map]; try reflexivity; lia.
Qed.


(** Between the quotes [check_bytes_correctly.py] puts the character itself
    for the codes 32 to 126 and a backslash, an [x] and two hexadecimal digits
    for every other byte. *)
Lemma check_bytes_rendered (b : byte) :
  CheckBytesReport.rendered (byte_int b)
  = if (32 <=? byte_int b) && (byte_int b <=? 126) then [byte_int b]
    else [92; 120; hexchar (byte_int b / 16); hexchar (byte_int b mod 16)].
Proof. destruct b; reflexivity. Qed.

(** ** Properties of the scripts *)

(** C9.  In [check_bytes_correctly.py] every index of the loop lies inside
    the file, whatever its length, so that each [content[i]] succeeds and the
    script runs to its end without raising; when the file has at most 1170
    bytes the window is empty and only the five lines outside the loop are
    printed. *)
Theorem C9_check_bytes_never_raises (content : bytes) :
  Forall (fun i => 0 <= i < len content
                   /\ forall out, getitem content i out
                                  = (out, Ok (byte_at content i)))
         (range (CheckBytesCorrectly.start ERROR_POS)
                (CheckBytesCorrectly.end_ ERROR_POS content))
  /\ CheckBytesCorrectly.main content
     = (CheckBytesReport.report ERROR_POS content, Ok tt)
  /\ (len content <= 1170 ->
      CheckBytesReport.window_entries ERROR_POS content = []
      /\ CheckBytesCorrectly.main content
         = ([lit "File length: " ++ fmt_d (len content);
             lit "Bytes around position 1175:";
             NL ++ lit "Line containing position 1175:";
             lit "'" ++ decode_utf8_replace
                          (CheckBytesCorrectly.line_content ERROR_POS content)
                 ++ lit "'";
             lit "Offset within line: "
                 ++ fmt_d (CheckBytesCorrectly.offset_in_line ERROR_POS content)],
            Ok tt)).
Proof.
  split; [|split].
  - apply Forall_forall. intros i Hi.
    apply check_bytes_window_in_range in Hi.
    split; [exact Hi|]. intros out. apply getitem_in_range. exact Hi.
  - apply check_bytes_run.
  - intros Hshort.
    assert (CheckBytesReport.window_entries ERROR_POS content = []) as Hw.
    { unfold CheckBytesReport.window_entries. rewrite range_nil; [reflexivity|].
      unfold CheckBytesCorrectly.start, CheckBytesCorrectly.end_, ERROR_POS. lia. }
    split; [exact Hw|]. unfold CheckBytesCorrectly.main.
    rewrite check_bytes_run. unfold CheckBytesReport.report. rewrite Hw.
    reflexivity.
Qed.

Lemma C9_check_bytes_never_raises_witness :
  len hi <= 1170
  /\ CheckBytesCorrectly.main hi
     = ([lit "File length: 2";
         lit "Bytes around position 1175:";
         NL ++ lit "Line containing position 1175:";
         lit "'hi'";
         lit "Offset within line: 1175"],
        Ok tt).
Proof.
  split; [vm_compute; discriminate|].
  destruct (C9_check_bytes_never_raises hi) as [_ [_ H]].
  destruct H as [_ H]; [vm_compute; discriminate|].
  rewrite H. reflexivity.
Defined.

(** C10.  The line boundaries that [check_bytes_correctly.py] computes
    satisfy [0 <= line_start <= line_end <= len(content)] for every file, so
    the slice [content[line_start:line_end]] has [line_end - line_start]
    bytes, and none of them is a newline. *)
Theorem C10_line_boundaries (pos : Z) (content : bytes) :
  0 <= pos ->
  0 <= CheckBytesCorrectly.line_start pos content
  /\ CheckBytesCorrectly.line_start pos content
     <= CheckBytesCorrectly.line_end pos content
  /\ CheckBytesCorrectly.line_end pos content <= len content
  /\ len (CheckBytesCorrectly.line_content pos content)
     = CheckBytesCorrectly.line_end pos content
       - CheckBytesCorrectly.line_start pos content
  /\ ~ In newline (CheckBytesCorrectly.line_content pos content).
Proof.
  intros Hpos. destruct (line_bounds pos content Hpos) as [[H1 H2] H3].
  split; [exact H1|]. split; [exact H2|]. split; [exact H3|].
  split; [apply line_content_len; exact Hpos|].
  apply line_content_no_newline; exact Hpos.
Qed.

Lemma C10_line_boundaries_witness :
  0 <= ERROR_POS
  /\ CheckBytesCorrectly.line_start ERROR_POS newline_at_target
     <= CheckBytesCorrectly.line_end ERROR_POS newline_at_target
  /\ ~ In newline (CheckBytesCorrectly.line_content ERROR_POS newline_at_target).
Proof.
  assert (0 <= ERROR_POS) as H by (vm_compute; discriminate).
  split; [exact H|].
  destruct (C10_line_boundaries ERROR_POS newline_at_target H)
    as [_ [H2 [_ [_ H5]]]].
  split; [exact H2 | exact H5].
Defined.

Lemma check_bytes_report_last (pos : Z) (content : bytes) :
  last (CheckBytesReport.report pos content) []
  = lit "Offset within line: "
      ++ fmt_d (CheckBytesCorrectly.offset_in_line pos content).
Proof.
  unfold CheckBytesReport.report.
  match goal with
  | |- last (?h ++ ?m ++ [?x; ?y; ?z]) _ = _ =>
      change (h ++ m ++ [x; y; z]) with (h ++ m ++ [x; y] ++ [z])
  end.
  rewrite !app_assoc. apply last_last.
Qed.

(** C7, the claim as stated fails.  The containing line of the report is
    the decoded text, and the column counts bytes.  The file
    [b"ab" + b"\xe2\x82\xac" * 500] is one line of 1502 bytes; for the offset
    1175 the script prints the column 1175, while the line it prints between
    the quotes has 502 characters. *)
Lemma C7_column_exceeds_decoded_line :
  0 <= ERROR_POS < len multibyte_file
  /\ CheckBytesCorrectly.offset_in_line ERROR_POS multibyte_file = 1175
  /\ len (decode_utf8_replace
            (CheckBytesCorrectly.line_content ERROR_POS multibyte_file)) = 502
  /\ last (fst (CheckBytesCorrectly.main multibyte_file)) []
     = lit "Offset within line: 1175"
  /\ ~ (CheckBytesCorrectly.offset_in_line ERROR_POS multibyte_file
        <= len (decode_utf8_replace
                  (CheckBytesCorrectly.line_content ERROR_POS multibyte_file))).
Proof.
  assert (CheckBytesCorrectly.offset_in_line ERROR_POS multibyte_file = 1175)
    as Ho by (vm_compute; reflexivity).
  assert (len (decode_utf8_replace
                 (CheckBytesCorrectly.line_content ERROR_POS multibyte_file))
          = 502) as Hd by (vm_compute; reflexivity).
  split; [split; [vm_compute; discriminate | vm_compute; reflexivity]|].
  split; [exact Ho|]. split; [exact Hd|].
  split; [vm_compute; reflexivity|].
  rewrite Ho, Hd. lia.
Qed.

(** C7, amended.  For an offset inside the file, the column that
    [check_bytes_correctly.py] prints in its last line is the offset minus the
    start of the line, and it lies between 0 and the number of bytes of the
    containing line, [content[line_start:line_end]] before it is decoded. *)
Theorem C7_column_in_line (pos : Z) (content : bytes) :
  0 <= pos < len content ->
  CheckBytesCorrectly.offset_in_line pos content
  = pos - CheckBytesCorrectly.line_start pos content
  /\ 0 <= CheckBytesCorrectly.offset_in_line pos content
  /\ CheckBytesCorrectly.offset_in_line pos content
     <= len (CheckBytesCorrectly.line_content pos content)
  /\ last (fst (run (CheckBytesCorrectly.script pos content))) []
     = lit "Offset within line: "
         ++ fmt_d (pos - CheckBytesCorrectly.line_start pos content).
Proof.
  intros [Hpos Hlt].
  destruct (line_start_spec pos content Hpos) as [Hs _].
  destruct (line_end_spec pos content Hpos) as [_ [_ [[He Hno]|[He _]]]];
    (split; [reflexivity|]); rewrite line_content_len by exact Hpos;
    unfold CheckBytesCorrectly.offset_in_line;
    (split; [lia|]); (split; [lia|]);
    rewrite check_bytes_run; apply check_bytes_report_last.
Qed.

Lemma C7_column_in_line_witness :
  CheckBytesCorrectly.offset_in_line 5 abc_def = 1
  /\ len (CheckBytesCorrectly.line_content 5 abc_def) = 3
  /\ CheckBytesCorrectly.offset_in_line 5 abc_def
     <= len (CheckBytesCorrectly.line_content 5 abc_def).
Proof.
  split; [reflexivity|]. split; [reflexivity|].
  apply (C7_column_in_line 5 abc_def). change (0 <= 5 < 8). lia.
Defined.






(** C3, the claim as stated fails.  In a file of 1200 bytes the window of
    [check_bytes_correctly.py] around 1175 holds the offsets 1170 to 1189,
    five before the target and fourteen after it: no radius makes it the
    symmetric range of the specification, whether the upper bound is read as
    included or as excluded. *)
Lemma C3_window_not_symmetric :
  map e_offset (CheckBytesReport.window_entries ERROR_POS long_file)
  = range 1170 1190
  /\ ~ (exists w,
           map e_offset (CheckBytesReport.window_entries ERROR_POS long_file)
           = spec_window_closed (len long_file) ERROR_POS w
           \/ map e_offset (CheckBytesReport.window_entries ERROR_POS long_file)
              = spec_window_half_open (len long_file) ERROR_POS w).
Proof.
  assert (map e_offset (CheckBytesReport.window_entries ERROR_POS long_file)
          = range 1170 1190) as E by (rewrite check_bytes_offsets; reflexivity).
  split; [exact E|]. rewrite E.
  change (len long_file) with 1200. unfold ERROR_POS.
  intros [w [H|H]];
    unfold spec_window_closed, spec_window_half_open in H;
    apply range_inj in H; lia.
Qed.

(** C3, amended.  The offsets of the entries are consecutive and increasing.
    In [check_bytes_correctly.py], for every file and every offset, they run
    from [max(0, pos - 5)] up to, but not including,
    [min(len(content), pos + 15)].  [find_error_char.py] prints its listing
    only when the offset lies inside the file, and then the offsets run from
    [max(0, pos - 10)] up to, but not including, [min(len(content), pos + 11)].
    For an offset inside the file that is at most five, respectively ten,
    entries before the target, and at most fourteen, respectively ten, after
    it, fewer only where the file begins or ends. *)
Theorem C3_window_offsets (pos : Z) (content : bytes) :
  run (CheckBytesCorrectly.script pos content)
  = (CheckBytesReport.report pos content, Ok tt)
  /\ map e_offset (CheckBytesReport.window_entries pos content)
     = range (Z.max 0 (pos - 5)) (Z.min (len content) (pos + 15))
  /\ StronglySorted Z.lt
       (map e_offset (CheckBytesReport.window_entries pos content))
  /\ (0 <= pos < len content ->
      run (FindErrorChar.script pos content)
      = (FindErrorCharReport.report pos content, Ok tt)
      /\ map e_offset (FindErrorCharReport.window_entries pos content)
         = range (Z.max 0 (pos - 10)) (Z.min (len content) (pos + 11))
      /\ StronglySorted Z.lt
           (map e_offset (FindErrorCharReport.window_entries pos content))
      /\ map e_offset (CheckBytesReport.window_entries pos content)
         = range (Z.max 0 (pos - 5)) pos
             ++ pos :: range (pos + 1) (Z.min (len content) (pos + 15))
      /\ len (range (Z.max 0 (pos - 5)) pos) = Z.min pos 5
      /\ len (range (pos + 1) (Z.min (len content) (pos + 15)))
         = Z.min (len content - pos - 1) 14
      /\ map e_offset (FindErrorCharReport.window_entries pos content)
         = range (Z.max 0 (pos - 10)) pos
             ++ pos :: range (pos + 1) (Z.min (len content) (pos + 11))
      /\ len (range (Z.max 0 (pos - 10)) pos) = Z.min pos 10
      /\ len (range (pos + 1) (Z.min (len content) (pos + 11)))
         = Z.min (len content - pos - 1) 10).
Proof.
  split; [apply check_bytes_run|].
  rewrite check_bytes_offsets, find_error_char_offsets.
  split; [reflexivity|]. split; [apply range_sorted|].
  intros H. split; [apply find_error_char_run; exact H|].
  split; [reflexivity|]. split; [apply range_sorted|].
  rewrite !range_length.
  split; [|split; [lia|split; [lia|split; [|split; lia]]]].
  - rewrite (range_app _ pos) by lia. f_equal. apply range_cons. lia.
  - rewrite (range_app _ pos) by lia. f_equal. apply range_cons. lia.
Qed.

Lemma C3_window_offsets_witness :
  map e_offset (CheckBytesReport.window_entries ERROR_POS long_file)
  = range 1170 1175 ++ 1175 :: range 1176 1190
  /\ run (FindErrorChar.script ERROR_POS long_file)
     = (FindErrorCharReport.report ERROR_POS long_file, Ok tt)
  /\ map e_offset (FindErrorCharReport.window_entries ERROR_POS long_file)
     = range 1165 1175 ++ 1175 :: range 1176 1186.
Proof.
  destruct (C3_window_offsets ERROR_POS long_file) as [_ [_ [_ H]]].
  destruct H as [Hrun [_ [_ [H1 [_ [_ [H2 _]]]]]]];
    [change (0 <= 1175 < 1200); lia|].
  split; [exact H1|]. split; [exact Hrun | exact H2].
Defined.

(** C4, the claim as stated fails.  In the file [b"a" * 1175 + b"\nb"] the
    byte at offset 1175 is a newline, hence the nearest newline at or before
    the offset; the line does not start after it, at 1176, but at 0, and the
    script prints the 1175 bytes in front of that newline as the line. *)
Lemma C4_newline_at_target :
  nearest_newline_at_or_before newline_at_target ERROR_POS 1175
  /\ CheckBytesCorrectly.line_start ERROR_POS newline_at_target = 0
  /\ CheckBytesCorrectly.line_end ERROR_POS newline_at_target = 1175
  /\ CheckBytesCorrectly.line_content ERROR_POS newline_at_target
     = repeat x61 1175
  /\ ~ (forall j,
           nearest_newline_at_or_before newline_at_target ERROR_POS j ->
           CheckBytesCorrectly.line_start ERROR_POS newline_at_target = j + 1).
Proof.
  assert (nearest_newline_at_or_before newline_at_target ERROR_POS 1175) as Hn.
  { unfold nearest_newline_at_or_before, ERROR_POS.
    split; [lia|]. split; [split; [lia | vm_compute; reflexivity]|].
    intros k Hk. lia. }
  assert (CheckBytesCorrectly.line_start ERROR_POS newline_at_target = 0) as Hs
      by (vm_compute; reflexivity).
  split; [exact Hn|]. split; [exact Hs|].
  split; [vm_compute; reflexivity|]. split; [vm_compute; reflexivity|].
  intros H. specialize (H 1175 Hn). rewrite Hs in H. discriminate.
Qed.

(** C4, amended.  The containing line starts after the last newline that
    lies strictly before the offset, or at 0 when there is none, and ends
    before the first newline at or after the offset, or at the end of the
    file when there is none; it is the slice between the two.  When the byte
    at the offset is a newline, that newline is the forward boundary, and the
    line is the one it ends. *)
Theorem C4_containing_line (pos : Z) (content : bytes) :
  0 <= pos < len content ->
  ((CheckBytesCorrectly.line_start pos content = 0
    /\ forall k, k < pos -> ~ has content k newline)
   \/ (has content (CheckBytesCorrectly.line_start pos content - 1) newline
       /\ CheckBytesCorrectly.line_start pos content - 1 < pos
       /\ forall k, CheckBytesCorrectly.line_start pos content <= k < pos ->
                    ~ has content k newline))
  /\ ((CheckBytesCorrectly.line_end pos content = len content
       /\ forall k, pos <= k -> ~ has content k newline)
      \/ (has content (CheckBytesCorrectly.line_end pos content) newline
          /\ pos <= CheckBytesCorrectly.line_end pos content
          /\ forall k, pos <= k < CheckBytesCorrectly.line_end pos content ->
                       ~ has content k newline))
  /\ CheckBytesCorrectly.line_content pos content
     = firstn (Z.to_nat (CheckBytesCorrectly.line_end pos content
                         - CheckBytesCorrectly.line_start pos content))
              (skipn (Z.to_nat (CheckBytesCorrectly.line_start pos content))
                     content)
  /\ (has content pos newline ->
      CheckBytesCorrectly.line_end pos content = pos
      /\ CheckBytesCorrectly.line_start pos content <= pos).
Proof.
  intros [Hpos Hlt].
  destruct (line_start_spec pos content Hpos) as [Hs [Hsl [Hbefore Hcase]]].
  destruct (line_end_spec pos content Hpos) as [Hel [Hafter Hcase']].
  destruct (line_bounds pos content Hpos) as [Hb1 Hb2].
  split; [|split; [|split]].
  - destruct Hcase as [[E Hno]|[Hgt Hat]].
    + left. split; assumption.
    + right. split; [exact Hat|]. split; [lia | exact Hbefore].
  - destruct Hcase' as [[E Hno]|[Hr Hat]].
    + left. split; assumption.
    + right. split; [exact Hat|]. split; [lia | exact Hafter].
  - unfold CheckBytesCorrectly.line_content.
    apply slice_inside; assumption.
  - intros Hnl. split; [|lia].
    destruct Hcase' as [[E Hno]|[Hr Hat]].
    + exfalso. apply (Hno pos); [lia | exact Hnl].
    + destruct (Z.eq_dec (CheckBytesCorrectly.line_end pos content) pos)
        as [E|Hne]; [exact E|].
      exfalso. apply (Hafter pos); [lia | exact Hnl].
Qed.

Lemma C4_containing_line_witness :
  CheckBytesCorrectly.line_content 5 abc_def
  = firstn (Z.to_nat (CheckBytesCorrectly.line_end 5 abc_def
                      - CheckBytesCorrectly.line_start 5 abc_def))
           (skipn (Z.to_nat (CheckBytesCorrectly.line_start 5 abc_def)) abc_def).
Proof.
  destruct (C4_containing_line 5 abc_def) as [_ [_ [H _]]].
  - change (0 <= 5 < 8). lia.
  - exact H.
Defined.

(** C1, the claim as stated fails.  The file [b"hi"] ends before offset
    1175.  [check_bytes_correctly.py] runs to its end on it, with an empty
    window, and returns normally; [find_error_char.py] prints the length of
    the file and is then stopped by the [IndexError] of [content[1175]], which
    nothing catches. *)
Lemma C1_offset_past_end_of_hi :
  len hi <= ERROR_POS
  /\ CheckBytesCorrectly.main hi
     = ([lit "File length: 2";
         lit "Bytes around position 1175:";
         NL ++ lit "Line containing position 1175:";
         lit "'hi'";
         lit "Offset within line: 1175"],
        Ok tt)
  /\ FindErrorChar.main hi = ([lit "File length: 2"], Raise IndexError).
Proof.
  split; [vm_compute; discriminate|].
  split; vm_compute; reflexivity.
Qed.

(** C1, amended.  When the offset is at or past the end of the file, neither
    script reports an out-of-range error of its own.  [find_error_char.py]
    prints the length of the file and stops with the [IndexError] that the
    first [content[pos]] raises.  [check_bytes_correctly.py] raises nothing and
    prints its whole report: the window holds the offsets from
    [max(0, pos - 5)] to the end of the file and has no marked entry. *)
Theorem C1_offset_past_end (pos : Z) (content : bytes) :
  len content <= pos ->
  run (FindErrorChar.script pos content)
  = ([lit "File length: " ++ fmt_d (len content)], Raise IndexError)
  /\ run (CheckBytesCorrectly.script pos content)
     = (CheckBytesReport.report pos content, Ok tt)
  /\ map e_offset (CheckBytesReport.window_entries pos content)
     = range (Z.max 0 (pos - 5)) (len content)
  /\ filter e_flag (CheckBytesReport.window_entries pos content) = [].
Proof.
  intros H. split; [apply find_error_char_run_past_end; exact H|].
  split; [apply check_bytes_run|]. split.
  - rewrite check_bytes_offsets. f_equal. lia.
  - rewrite check_bytes_flagged.
    destruct (Z.ltb_spec pos (len content)); [lia|].
    rewrite andb_false_r. reflexivity.
Qed.

Lemma C1_offset_past_end_witness :
  run (FindErrorChar.script 5 hi) = ([lit "File length: 2"], Raise IndexError)
  /\ filter e_flag (CheckBytesReport.window_entries 5 hi) = [].
Proof.
  destruct (C1_offset_past_end 5 hi) as [H1 [_ [_ H2]]].
  - change (2 <= 5). lia.
  - split; [exact H1 | exact H2].
Defined.

(** C2.  [check_bytes_correctly.py] shows a byte between the quotes as the
    character itself exactly when its value is from 32 to 126, and as a
    backslash, an [x] and two hexadecimal digits otherwise.
    [find_error_char.py] does not: it shows every byte as [chr] of its value.
    In the file [b"a" * 1175 + b"\nb"], whose byte at 1175 is a newline, the
    marked line of [check_bytes_correctly.py] shows the escape, while the
    second line and the marked line of [find_error_char.py] hold the newline
    character itself. *)
Theorem C2_newline_rendering :
  (forall b : byte,
      CheckBytesReport.rendered (byte_int b)
      = if (32 <=? byte_int b) && (byte_int b <=? 126) then [byte_int b]
        else [92; 120; hexchar (byte_int b / 16); hexchar (byte_int b mod 16)])
  /\ nth_error (fst (CheckBytesCorrectly.main newline_at_target)) 7
     = Some (lit "Position 1175: 0x0a ( 10) '\x0a' <<<<")
  /\ snd (FindErrorChar.main newline_at_target) = Ok tt
  /\ nth_error (fst (FindErrorChar.main newline_at_target)) 1
     = Some (lit "Character at position 1175: " ++ NL)
  /\ nth_error (fst (FindErrorChar.main newline_at_target)) 16
     = Some (lit "Position 1175: '" ++ NL ++ lit "' <<<< ERROR HERE").
Proof.
  split; [exact check_bytes_rendered|].
  repeat split; vm_compute; reflexivity.
Qed.

(** C8.  Decoding with the replacement policy is defined on every sequence of
    bytes and raises nothing.  Its output follows a cutting of the input into
    consecutive pieces: a piece that is the encoding of a scalar value yields
    that value, and a piece of one to three bytes that is the encoding of no
    code point yields the placeholder U+FFFD; text that is well formed is
    decoded to itself.  [check_bytes_correctly.py] therefore prints its whole
    report, with the decoded line, for every file, and [find_error_char.py]
    prints its whole report, with the decoded context, for every file that
    contains the offset. *)
Theorem C8_decoding_never_fails (pos : Z) (content : bytes) :
  (forall bs : bytes,
      List.concat (map chunk_src (utf8_chunks bs)) = bs
      /\ Forall chunk_ok (utf8_chunks bs)
      /\ decode_utf8_replace bs = map chunk_char (utf8_chunks bs))
  /\ (forall cps : list Z,
         Forall (fun cp => is_scalar cp = true) cps ->
         decode_utf8_replace (flat_map utf8_encode cps) = cps)
  /\ run (CheckBytesCorrectly.script pos content)
     = (CheckBytesReport.report pos content, Ok tt)
  /\ In (lit "'"
           ++ decode_utf8_replace (CheckBytesCorrectly.line_content pos content)
           ++ lit "'")
        (CheckBytesReport.report pos content)
  /\ (0 <= pos < len content ->
      run (FindErrorChar.script pos content)
      = (FindErrorCharReport.report pos content, Ok tt)
      /\ nth_error (FindErrorCharReport.report pos content) 4
         = Some (decode_utf8_replace (FindErrorChar.context pos content))).
Proof.
  split; [|split; [|split; [|split]]].
  - intros bs. destruct (utf8_chunks_sound bs) as [H1 H2].
    split; [exact H1|]. split; [exact H2 | reflexivity].
  - exact decode_utf8_replace_valid.
  - apply check_bytes_run.
  - unfold CheckBytesReport.report. apply in_or_app. right.
    apply in_or_app. right. right. left. reflexivity.
  - intros H. split; [apply find_error_char_run; exact H | reflexivity].
Qed.

Lemma C8_decoding_never_fails_witness :
  decode_utf8_replace [xe2; x82; xac; x41; xe2; x28; xff]%byte
  = [8364; 65; REPLACEMENT; 40; REPLACEMENT]
  /\ decode_utf8_replace (flat_map utf8_encode [8364; 65]) = [8364; 65]
  /\ run (FindErrorChar.script 5 abc_def)
     = (FindErrorCharReport.report 5 abc_def, Ok tt).
Proof.
  split; [vm_compute; reflexivity|].
  destruct (C8_decoding_never_fails 5 abc_def) as [_ [H2 [_ [_ H5]]]].
  split.
  - apply H2. repeat constructor.
  - apply H5. change (0 <= 5 < 8). lia.
Defined.

(** ** Further properties of the listings *)

Lemma check_bytes_entry_in_window (pos : Z) (content : bytes) (e : entry) :
  In e (CheckBytesReport.window_entries pos content) ->
  exists i, e = CheckBytesReport.entry_at pos content i
            /\ Z.max 0 (pos - 5) <= i < Z.min (len content) (pos + 15).
Proof.
  unfold CheckBytesReport.window_entries. rewrite in_map_iff.
  intros [i [E Hi]]. exists i. split; [symmetry; exact E|].
  apply range_In in Hi. exact Hi.
Qed.

Lemma find_error_char_entry_in_window (pos : Z) (content : bytes) (e : entry) :
  In e (FindErrorCharReport.window_entries pos content) ->
  exists i, e = FindErrorCharReport.entry_at pos content i
            /\ Z.max 0 (pos - 10) <= i < Z.min (len content) (pos + 11).
Proof.
  unfold FindErrorCharReport.window_entries. rewrite in_map_iff.
  intros [i [E Hi]]. exists i. split; [symmetry; exact E|].
  apply range_In in Hi. exact Hi.
Qed.

(** X1.  Every line of the listing of [check_bytes_correctly.py], marked or
    not, reports an offset inside the file together with the byte stored at
    that offset, a value from 0 to 255, and it is marked exactly when its
    offset is the inspected one; this holds for every file and every offset,
    also when the file is shorter than the offset. *)
Theorem X1_check_bytes_listed_bytes (pos : Z) (content : bytes) :
  run (CheckBytesCorrectly.script pos content)
  = (CheckBytesReport.report pos content, Ok tt)
  /\ Forall (fun e =>
               0 <= e_offset e < len content
               /\ (exists b, nth_error content (Z.to_nat (e_offset e)) = Some b
                             /\ e_byte e = byte_int b)
               /\ 0 <= e_byte e < 256
               /\ e_flag e = (e_offset e =? pos))
            (CheckBytesReport.window_entries pos content).
Proof.
  split; [apply check_bytes_run|]. apply Forall_forall. intros e He.
  destruct (check_bytes_entry_in_window pos content e He) as [i [-> Hi]].
  cbn [CheckBytesReport.entry_at e_offset e_byte e_flag].
  assert (0 <= i < len content) as Hin by lia.
  split; [exact Hin|]. split; [|split; [apply byte_at_range | reflexivity]].
  destruct (nth_error_byte_at content i Hin) as [b [Hb Eb]].
  exists b. split; assumption.
Qed.

(** X2.  When the offset lies inside the file, [find_error_char.py] prints
    its listing, and every line of it reports an offset inside the file with
    the character whose code is the byte stored there; the line is marked
    exactly when its offset is the inspected one. *)
Theorem X2_find_error_char_listed_bytes (pos : Z) (content : bytes) :
  0 <= pos < len content ->
  run (FindErrorChar.script pos content)
  = (FindErrorCharReport.report pos content, Ok tt)
  /\ Forall (fun e =>
               0 <= e_offset e < len content
               /\ (exists b, nth_error content (Z.to_nat (e_offset e)) = Some b
                             /\ e_byte e = byte_int b
                             /\ e_char e = [byte_int b])
               /\ e_flag e = (e_offset e =? pos))
            (FindErrorCharReport.window_entries pos content).
Proof.
  intros H. split; [apply find_error_char_run; exact H|].
  apply Forall_forall. intros e He.
  destruct (find_error_char_entry_in_window pos content e He) as [i [-> Hi]].
  cbn [FindErrorCharReport.entry_at e_offset e_byte e_char e_flag].
  assert (0 <= i < len content) as Hin by lia.
  split; [exact Hin|]. split; [|reflexivity].
  destruct (nth_error_byte_at content i Hin) as [b [Hb Eb]].
  exists b. rewrite Eb. repeat split; assumption.
Qed.

Lemma X2_find_error_char_listed_bytes_witness :
  run (FindErrorChar.script 5 abc_def)
  = (FindErrorCharReport.report 5 abc_def, Ok tt).
Proof.
  apply (X2_find_error_char_listed_bytes 5 abc_def). change (0 <= 5 < 8). lia.
Defined.

(** ** The numbers in the output *)

Lemma lit_cons (a : ascii) (s : string) :
  lit (String a s) = Z.of_N (N_of_ascii a) :: lit s.
Proof. reflexivity. Qed.

Lemma lit_app (s t : string) : lit (s ++ t) = lit s ++ lit t.
Proof.
  induction s as [|a s IH]; [reflexivity|].
  cbn [String.append]. rewrite !lit_cons, IH. reflexivity.
Qed.

Lemma uint_digits (d : Decimal.uint) :
  Forall is_digit (lit (DecimalString.NilEmpty.string_of_uint d)).
Proof.
  induction d; cbn [DecimalString.NilEmpty.string_of_uint];
    [constructor | ..]; rewrite lit_cons; constructor;
    try exact IHd; unfold is_digit; vm_compute; split; discriminate.
Qed.

Ltac ascii_code :=
  match goal with
  | |- context [Z.of_N (N_of_ascii ?a)] =>
      let v := eval vm_compute in (Z.of_N (N_of_ascii a)) in
      change (Z.of_N (N_of_ascii a)) with v
  end.

(** Reading the digits of a numeral from an accumulator. *)
Lemma uint_value_acc (d : Decimal.uint) (acc : positive) :
  fold_left (fun a c => 10 * a + (c - 48))
            (lit (DecimalString.NilEmpty.string_of_uint d)) (Z.pos acc)
  = Z.pos (Pos.of_uint_acc d acc).
Proof.
  revert acc.
  induction d; intros acc;
    cbn [DecimalString.NilEmpty.string_of_uint Pos.of_uint_acc];
    [reflexivity | ..]; rewrite lit_cons; cbn [fold_left];
    rewrite <- IHd; f_equal; ascii_code; lia.
Qed.

Lemma uint_value (d : Decimal.uint) :
  int_of_str (lit (DecimalString.NilEmpty.string_of_uint d))
  = Z.of_N (Pos.of_uint d).
Proof.
  unfold int_of_str.
  induction d;
    cbn [DecimalString.NilEmpty.string_of_uint Pos.of_uint];
    [reflexivity | ..]; rewrite lit_cons; cbn [fold_left];
    try (rewrite <- IHd; reflexivity);
    cbn [Z.of_N]; rewrite <- uint_value_acc; reflexivity.
Qed.

(** A number that is not negative is printed as decimal digits that read
    back as the number. *)
Lemma fmt_d_reads_back (z : Z) :
  0 <= z -> Forall is_digit (fmt_d z) /\ int_of_str (fmt_d z) = z.
Proof.
  intros Hz. unfold fmt_d. destruct (Z.ltb_spec z 0); [lia|].
  unfold digits. split; [apply uint_digits|].
  rewrite uint_value. change Pos.of_uint with N.of_uint.
  rewrite DecimalN.Unsigned.of_to. lia.
Qed.

(** X12.  The first line that either script prints is [File length: ]
    followed by decimal digits that read back as the number of bytes of the
    file; [find_error_char.py] prints it also when it then stops with
    [IndexError]. *)
Theorem X12_file_length_line (pos : Z) (content : bytes) :
  0 <= pos ->
  hd [] (fst (run (CheckBytesCorrectly.script pos content)))
  = lit "File length: " ++ fmt_d (len content)
  /\ hd [] (fst (run (FindErrorChar.script pos content)))
     = lit "File length: " ++ fmt_d (len content)
  /\ Forall is_digit (fmt_d (len content))
  /\ int_of_str (fmt_d (len content)) = len content.
Proof.
  intros Hpos. split; [|split].
  - rewrite check_bytes_run. reflexivity.
  - destruct (Z.lt_ge_cases pos (len content)) as [Hin|Hout].
    + rewrite find_error_char_run by lia. reflexivity.
    + rewrite find_error_char_run_past_end by lia. reflexivity.
  - apply fmt_d_reads_back. apply len_nonneg.
Qed.

Lemma X12_file_length_line_witness :
  hd [] (fst (FindErrorChar.main hi)) = lit "File length: 2"
  /\ int_of_str (fmt_d (len hi)) = 2.
Proof.
  destruct (X12_file_length_line ERROR_POS hi) as [_ [H2 [_ H4]]].
  - unfold ERROR_POS. lia.
  - split; [exact H2 | exact H4].
Defined.

(** ** The shape of a line of the listing *)

Lemma printable_check (l : str) :
  forallb (fun c => (32 <=? c) && (c <=? 126)) l = true ->
  Forall is_printable l.
Proof.
  rewrite forallb_forall, Forall_forall. intros H c Hc.
  specialize (H c Hc). apply andb_true_iff in H.
  rewrite Z.leb_le, Z.leb_le in H. exact H.
Qed.

Lemma digit_printable (l : str) : Forall is_digit l -> Forall is_printable l.
Proof.
  apply Forall_impl. unfold is_digit, is_printable. intros c Hc. lia.
Qed.

Lemma fmt_wd_printable (width : nat) (z : Z) :
  0 <= z -> Forall is_printable (fmt_wd width z).
Proof.
  intros Hz. unfold fmt_wd, pad_left. apply Forall_app. split.
  - apply Forall_forall. intros c Hc. apply repeat_spec in Hc. subst c.
    unfold is_printable. lia.
  - apply digit_printable. apply fmt_d_reads_back. exact Hz.
Qed.

(** The three fields that depend on the byte: two hexadecimal digits, a
    decimal number in three columns, and one character or an escape of four
    characters between the quotes. *)
Lemma byte_fields (b : byte) :
  fmt_02x (byte_int b)
  = [hexchar (byte_int b / 16); hexchar (byte_int b mod 16)]
  /\ List.length (fmt_wd 3 (byte_int b)) = 3%nat
  /\ List.length (CheckBytesReport.rendered (byte_int b))
     = (if (32 <=? byte_int b) && (byte_int b <=? 126) then 1%nat else 4%nat)
  /\ Forall is_printable (fmt_02x (byte_int b))
  /\ Forall is_printable (fmt_wd 3 (byte_int b))
  /\ Forall is_printable (CheckBytesReport.rendered (byte_int b)).
Proof.
  destruct b;
    (split; [vm_compute; reflexivity|]); (split; [vm_compute; reflexivity|]);
    (split; [vm_compute; reflexivity|]);
    (split; [|split]); apply printable_check; vm_compute; reflexivity.
Qed.

Lemma byte_at_fields (content : bytes) (i : Z) :
  fmt_02x (byte_at content i)
  = [hexchar (byte_at content i / 16); hexchar (byte_at content i mod 16)]
  /\ List.length (fmt_wd 3 (byte_at content i)) = 3%nat
  /\ List.length (CheckBytesReport.rendered (byte_at content i))
     = (if (32 <=? byte_at content i) && (byte_at content i <=? 126)
        then 1%nat else 4%nat)
  /\ Forall is_printable (fmt_02x (byte_at content i))
  /\ Forall is_printable (fmt_wd 3 (byte_at content i))
  /\ Forall is_printable (CheckBytesReport.rendered (byte_at content i)).
Proof. unfold byte_at. apply byte_fields. Qed.

(** X3.  Whatever bytes the file holds, every line of the listing that
    [check_bytes_correctly.py] prints consists of printable ASCII characters
    only, codes 32 to 126: no byte of the file reaches the output as a control
    character or as a character outside ASCII. *)
Theorem X3_check_bytes_listing_printable (pos : Z) (content : bytes) :
  run (CheckBytesCorrectly.script pos content)
  = (CheckBytesReport.report pos content, Ok tt)
  /\ Forall (Forall is_printable)
            (map CheckBytesReport.entry_line
                 (CheckBytesReport.window_entries pos content)).
Proof.
  split; [apply check_bytes_run|].
  apply Forall_forall. intros line Hline. apply in_map_iff in Hline.
  destruct Hline as [e [<- He]].
  destruct (check_bytes_entry_in_window pos content e He) as [i [-> Hi]].
  destruct (byte_at_fields content i) as [_ [_ [_ [Hx [Hd Hr]]]]].
  unfold CheckBytesReport.entry_line.
  cbn [CheckBytesReport.entry_at e_offset e_byte e_char e_flag].
  apply Forall_app; split; [apply printable_check; reflexivity|].
  apply Forall_app; split; [apply fmt_wd_printable; lia|].
  apply Forall_app; split; [apply printable_check; reflexivity|].
  apply Forall_app; split; [exact Hx|].
  apply Forall_app; split; [apply printable_check; reflexivity|].
  apply Forall_app; split; [exact Hd|].
  apply Forall_app; split; [apply printable_check; reflexivity|].
  apply Forall_app; split; [exact Hr|].
  apply Forall_app; split; [apply printable_check; reflexivity|].
  destruct (i =? pos); apply printable_check; reflexivity.
Qed.




(** ** More on the containing line *)

Lemma line_start_unique (pos : Z) (content : bytes) (s : Z) :
  0 <= s <= pos ->
  s = 0 \/ has content (s - 1) newline ->
  (forall k, s <= k < pos -> ~ has content k newline) ->
  CheckBytesCorrectly.line_start pos content = s.
Proof.
  intros Hs Hedge Hnone.
  assert (0 <= pos) as Hpos by lia.
  destruct (line_start_spec pos content Hpos)
    as [Hr [_ [Hbefore [[E Hno]|[Hgt Hat]]]]].
  - destruct Hedge as [->|Hat]; [exact E|].
    exfalso. apply (Hno (s - 1)); [lia | exact Hat].
  - destruct (Z.lt_trichotomy (CheckBytesCorrectly.line_start pos content) s)
      as [Hlt|[E|Hlt]]; [|exact E|].
    + destruct Hedge as [->|Hat']; [lia|].
      exfalso. apply (Hbefore (s - 1)); [lia | exact Hat'].
    + exfalso.
      apply (Hnone (CheckBytesCorrectly.line_start pos content - 1));
        [lia | exact Hat].
Qed.

Lemma line_end_unique (pos : Z) (content : bytes) (e : Z) :
  0 <= pos -> pos <= e <= len content ->
  e = len content \/ has content e newline ->
  (forall k, pos <= k < e -> ~ has content k newline) ->
  CheckBytesCorrectly.line_end pos content = e.
Proof.
  intros Hpos He Hedge Hnone.
  destruct (line_end_spec pos content Hpos)
    as [Hle [Hafter [[E Hno]|[Hr Hat]]]].
  - destruct Hedge as [->|Hat]; [exact E|].
    exfalso. apply (Hno e); [lia | exact Hat].
  - destruct (Z.lt_trichotomy (CheckBytesCorrectly.line_end pos content) e)
      as [Hlt|[E|Hlt]]; [|exact E|].
    + exfalso.
      apply (Hnone (CheckBytesCorrectly.line_end pos content));
        [lia | exact Hat].
    + destruct Hedge as [->|Hat']; [lia|].
      exfalso. apply (Hafter e); [lia | exact Hat'].
Qed.

(** X5.  The containing line does not depend on where in the line the
    offset lies: every offset from the start of the line to its end, the
    terminating newline included, gives the same boundaries and the same
    line, and the reported column moves with the offset. *)
Theorem X5_same_line_same_report (pos pos' : Z) (content : bytes) :
  0 <= pos ->
  CheckBytesCorrectly.line_start pos content <= pos'
  /\ pos' <= CheckBytesCorrectly.line_end pos content ->
  CheckBytesCorrectly.line_start pos' content
  = CheckBytesCorrectly.line_start pos content
  /\ CheckBytesCorrectly.line_end pos' content
     = CheckBytesCorrectly.line_end pos content
  /\ CheckBytesCorrectly.line_content pos' content
     = CheckBytesCorrectly.line_content pos content
  /\ CheckBytesCorrectly.offset_in_line pos' content
     = CheckBytesCorrectly.offset_in_line pos content + (pos' - pos).
Proof.
  intros Hpos [Hlo Hhi].
  destruct (line_start_spec pos content Hpos) as [Hs [Hsl [Hbefore Hcase]]].
  destruct (line_end_spec pos content Hpos) as [Hel [Hafter Hcase']].
  assert (forall k, CheckBytesCorrectly.line_start pos content <= k
                    < CheckBytesCorrectly.line_end pos content ->
                    ~ has content k newline) as Hnone.
  { intros k Hk. destruct (Z.lt_ge_cases k pos).
    - apply Hbefore. lia.
    - apply Hafter. lia. }
  assert (CheckBytesCorrectly.line_start pos' content
          = CheckBytesCorrectly.line_start pos content) as Es.
  { apply line_start_unique; [lia | |].
    - destruct Hcase as [[E _]|[_ Hat]]; [left; exact E | right; exact Hat].
    - intros k Hk. apply Hnone. lia. }
  assert (CheckBytesCorrectly.line_end pos' content
          = CheckBytesCorrectly.line_end pos content) as Ee.
  { apply line_end_unique; [lia | lia | |].
    - destruct Hcase' as [[E _]|[_ Hat]]; [left; exact E | right; exact Hat].
    - intros k Hk. apply Hnone. lia. }
  split; [exact Es|]. split; [exact Ee|]. split.
  - unfold CheckBytesCorrectly.line_content. rewrite Es, Ee. reflexivity.
  - unfold CheckBytesCorrectly.offset_in_line. rewrite Es. lia.
Qed.

Lemma X5_same_line_same_report_witness :
  CheckBytesCorrectly.line_content 7 abc_def
  = CheckBytesCorrectly.line_content 5 abc_def
  /\ CheckBytesCorrectly.offset_in_line 7 abc_def = 3.
Proof.
  destruct (X5_same_line_same_report 5 7 abc_def) as [_ [_ [H3 H4]]].
  - lia.
  - change (4 <= 7 /\ 7 <= 7). lia.
  - split; [exact H3 | exact H4].
Defined.

(** X8.  For a file that ends at or before the offset,
    [check_bytes_correctly.py] reports the last line of the file, the bytes
    after its last newline, exactly as it does for the offset at the end of
    the file, and the column it prints overshoots the length of that line by
    the distance from the end of the file to the offset. *)
Theorem X8_short_file_line (pos : Z) (content : bytes) :
  len content <= pos ->
  CheckBytesCorrectly.line_end pos content = len content
  /\ CheckBytesCorrectly.line_start pos content
     = CheckBytesCorrectly.line_start (len content) content
  /\ CheckBytesCorrectly.line_content pos content
     = skipn (Z.to_nat (CheckBytesCorrectly.line_start pos content)) content
  /\ CheckBytesCorrectly.offset_in_line pos content
     = len (CheckBytesCorrectly.line_content pos content)
       + (pos - len content).
Proof.
  intros Hshort. pose proof (len_nonneg content) as Hl.
  assert (0 <= pos) as Hpos by lia.
  destruct (line_start_spec pos content Hpos) as [Hs [Hsl [Hbefore Hcase]]].
  destruct (line_bounds pos content Hpos) as [Hb1 Hb2].
  assert (CheckBytesCorrectly.line_end pos content = len content) as Ee.
  { destruct (line_end_spec pos content Hpos) as [_ [_ [[E _]|[Hr _]]]];
      [exact E | lia]. }
  split; [exact Ee|]. split; [|split].
  - symmetry. apply line_start_unique; [lia | |].
    + destruct Hcase as [[E _]|[_ Hat]]; [left; exact E | right; exact Hat].
    + intros k Hk. apply Hbefore. lia.
  - unfold CheckBytesCorrectly.line_content.
    rewrite (proj1 (slice_inside content _ _ Hb1 Hb2)). rewrite Ee.
    apply firstn_all2. rewrite length_skipn. unfold len. lia.
  - rewrite line_content_len by exact Hpos. rewrite Ee.
    unfold CheckBytesCorrectly.offset_in_line. lia.
Qed.

Lemma X8_short_file_line_witness :
  CheckBytesCorrectly.line_content ERROR_POS hi = hi
  /\ CheckBytesCorrectly.offset_in_line ERROR_POS hi = 2 + (ERROR_POS - 2).
Proof.
  destruct (X8_short_file_line ERROR_POS hi) as [_ [_ [H3 H4]]].
  - change (2 <= 1175). lia.
  - split; [rewrite H3; reflexivity | exact H4].
Defined.

Lemma firstn_snoc {A} (l : list A) (n : nat) (x : A) :
  nth_error l n = Some x -> firstn (S n) l = firstn n l ++ [x].
Proof.
  revert n. induction l as [|a l IH]; intros [|n] H; try discriminate.
  - cbn in H. injection H as ->. reflexivity.
  - cbn [firstn app]. f_equal. apply IH. exact H.
Qed.

Lemma skipn_cons {A} (l : list A) (n : nat) (x : A) :
  nth_error l n = Some x -> skipn n l = x :: skipn (S n) l.
Proof.
  revert n. induction l as [|a l IH]; intros [|n] H; try discriminate.
  - cbn in H. injection H as ->. reflexivity.
  - cbn [skipn]. apply IH. exact H.
Qed.

(** X6.  The containing line is a maximal stretch without newline: the file
    is what precedes the line, the line, and what follows it; what precedes
    is empty or ends with a newline, what follows is empty or begins with a
    newline, and the line holds none. *)
Theorem X6_line_splits_file (pos : Z) (content : bytes) :
  0 <= pos ->
  exists before after,
    content = before ++ CheckBytesCorrectly.line_content pos content ++ after
    /\ len before = CheckBytesCorrectly.line_start pos content
    /\ (before = [] \/ exists before', before = before' ++ [newline])
    /\ (after = [] \/ exists after', after = newline :: after')
    /\ ~ In newline (CheckBytesCorrectly.line_content pos content).
Proof.
  intros Hpos.
  destruct (line_start_spec pos content Hpos) as [Hs [Hsl [_ Hcase]]].
  destruct (line_end_spec pos content Hpos) as [Hel [_ Hcase']].
  destruct (line_bounds pos content Hpos) as [Hb1 Hb2].
  set (ls := CheckBytesCorrectly.line_start pos content) in *.
  set (le := CheckBytesCorrectly.line_end pos content) in *.
  exists (firstn (Z.to_nat ls) content), (skipn (Z.to_nat le) content).
  split; [|split; [|split; [|split]]].
  - unfold CheckBytesCorrectly.line_content. fold ls le.
    rewrite (proj1 (slice_inside content ls le Hb1 Hb2)).
    rewrite <- (firstn_skipn (Z.to_nat ls) content) at 1. f_equal.
    rewrite <- (firstn_skipn (Z.to_nat (le - ls))
                  (skipn (Z.to_nat ls) content)) at 1.
    f_equal. rewrite skipn_skipn. f_equal. lia.
  - unfold len in *. rewrite length_firstn. lia.
  - destruct Hcase as [[E _]|[Hgt [_ Hat]]].
    + left. rewrite E. reflexivity.
    + right. exists (firstn (Z.to_nat (ls - 1)) content).
      replace (Z.to_nat ls) with (S (Z.to_nat (ls - 1))) by lia.
      apply firstn_snoc. exact Hat.
  - destruct Hcase' as [[E _]|[_ [_ Hat]]].
    + left. rewrite E. apply skipn_all2. unfold len. lia.
    + right. exists (skipn (S (Z.to_nat le)) content).
      apply skipn_cons. exact Hat.
  - apply line_content_no_newline. exact Hpos.
Qed.

Lemma X6_line_splits_file_witness :
  exists before after,
    abc_def = before ++ CheckBytesCorrectly.line_content 5 abc_def ++ after
    /\ len before = CheckBytesCorrectly.line_start 5 abc_def.
Proof.
  destruct (X6_line_splits_file 5 abc_def) as [before [after [H1 [H2 _]]]].
  - lia.
  - exists before, after. split; [exact H1 | exact H2].
Defined.

(** A character below 128 in the decoded text is a byte of the data: the
    decoder makes none up. *)
Lemma decode_ascii_from_bytes (bs : bytes) (c : Z) :
  c < 128 -> In c (decode_utf8_replace bs) ->
  0 <= c /\ In (byte_of_int c) bs.
Proof.
  intros Hc Hin. unfold decode_utf8_replace in Hin.
  apply in_map_iff in Hin. destruct Hin as [ch [Ech Hch]].
  destruct (utf8_chunks_sound bs) as [Hcat Hok].
  rewrite Forall_forall in Hok. specialize (Hok ch Hch).
  destruct ch as [cp src|src]; cbn [chunk_char chunk_ok] in *.
  - subst cp. destruct Hok as [Hsc Henc]. apply is_scalar_range in Hsc.
    split; [lia|]. rewrite <- Hcat. apply in_concat.
    exists src. split; [apply in_map_iff; exists (Decoded c src); auto|].
    rewrite <- Henc. unfold utf8_encode.
    destruct (Z.ltb_spec c 128); [left; reflexivity | lia].
  - unfold REPLACEMENT in Ech. lia.
Qed.

(** X7.  The text that [check_bytes_correctly.py] prints between the quotes
    as the containing line holds no line break, whatever the bytes of the
    line are and however they decode. *)
Theorem X7_printed_line_is_one_line (pos : Z) (content : bytes) :
  0 <= pos ->
  ~ In 10 (decode_utf8_replace (CheckBytesCorrectly.line_content pos content))
  /\ In (lit "'"
           ++ decode_utf8_replace (CheckBytesCorrectly.line_content pos content)
           ++ lit "'")
        (fst (run (CheckBytesCorrectly.script pos content))).
Proof.
  intros Hpos. split.
  - intros Hin. apply decode_ascii_from_bytes in Hin; [|lia].
    destruct Hin as [_ Hin].
    apply (line_content_no_newline pos content Hpos). exact Hin.
  - rewrite check_bytes_run. cbn [fst]. unfold CheckBytesReport.report.
    apply in_or_app. right. apply in_or_app. right. right. left. reflexivity.
Qed.

Lemma X7_printed_line_is_one_line_witness :
  ~ In 10 (decode_utf8_replace
             (CheckBytesCorrectly.line_content ERROR_POS newline_at_target)).
Proof.
  destruct (X7_printed_line_is_one_line ERROR_POS newline_at_target)
    as [H _].
  - unfold ERROR_POS. lia.
  - exact H.
Defined.

(** ** The context of find_error_char.py *)

(** X9.  When the offset lies inside the file, the context that
    [find_error_char.py] decodes and prints is the stretch of the file from
    [max(0, pos - 50)] up to, but not including, [min(len(content), pos + 50)]:
    it has from 1 to 100 bytes, at most 50 of them before the target and at
    most 49 after it, and the target byte stands in it at index
    [pos - max(0, pos - 50)]. *)
Theorem X9_context_window (pos : Z) (content : bytes) :
  0 <= pos < len content ->
  len (FindErrorChar.context pos content)
  = Z.min (len content) (pos + 50) - Z.max 0 (pos - 50)
  /\ 1 <= len (FindErrorChar.context pos content) <= 100
  /\ (forall k : nat,
         nth_error (FindErrorChar.context pos content) k
         = if Z.of_nat k <? len (FindErrorChar.context pos content)
           then nth_error content (Z.to_nat (Z.max 0 (pos - 50) + Z.of_nat k))
           else None)
  /\ nth_error (FindErrorChar.context pos content)
               (Z.to_nat (pos - Z.max 0 (pos - 50)))
     = nth_error content (Z.to_nat pos)
  /\ pos - Z.max 0 (pos - 50) <= 50
  /\ len (FindErrorChar.context pos content) - (pos - Z.max 0 (pos - 50)) - 1
     <= 49
  /\ nth_error (fst (run (FindErrorChar.script pos content))) 4
     = Some (decode_utf8_replace (FindErrorChar.context pos content)).
Proof.
  intros H.
  assert (0 <= Z.max 0 (pos - 50) <= Z.min (len content) (pos + 50)) as Hab
      by lia.
  assert (Z.min (len content) (pos + 50) <= len content) as Hb by lia.
  assert (len (FindErrorChar.context pos content)
          = Z.min (len content) (pos + 50) - Z.max 0 (pos - 50)) as El.
  { unfold FindErrorChar.context, FindErrorChar.start, FindErrorChar.end_.
    apply slice_inside; assumption. }
  assert (forall k : nat,
             nth_error (FindErrorChar.context pos content) k
             = if Z.of_nat k <? len (FindErrorChar.context pos content)
               then nth_error content
                      (Z.to_nat (Z.max 0 (pos - 50) + Z.of_nat k))
               else None) as Hnth.
  { intros k. rewrite El.
    unfold FindErrorChar.context, FindErrorChar.start, FindErrorChar.end_.
    apply slice_nth_error; assumption. }
  split; [exact El|]. split; [lia|]. split; [exact Hnth|].
  split; [|split; [lia|split; [lia|]]].
  - rewrite Hnth.
    destruct (Z.ltb_spec (Z.of_nat (Z.to_nat (pos - Z.max 0 (pos - 50))))
                (len (FindErrorChar.context pos content))); [|lia].
    f_equal. lia.
  - rewrite find_error_char_run by exact H. reflexivity.
Qed.

Lemma X9_context_window_witness :
  len (FindErrorChar.context ERROR_POS long_file) = 75
  /\ nth_error (FindErrorChar.context ERROR_POS long_file) 50
     = nth_error long_file 1175.
Proof.
  destruct (X9_context_window ERROR_POS long_file) as [H1 [_ [_ [H4 _]]]].
  - change (0 <= 1175 < 1200). lia.
  - split; [exact H1 | exact H4].
Defined.

(** ** The size of the output *)

Lemma count_lines_app (out out' : list str) :
  count_lines (out ++ out') = count_lines out + count_lines out'.
Proof.
  induction out as [|s out IH]; [reflexivity|].
  cbn [app]. unfold count_lines in *. cbn [fold_right]. rewrite IH. lia.
Qed.

Lemma len_app {A} (l l' : list A) : len (l ++ l') = len l + len l'.
Proof. unfold len. rewrite length_app. lia. Qed.

Lemma count_lines_cons (s : str) (out : list str) :
  count_lines (s :: out)
  = 1 + len (filter (Z.eqb 10) s) + count_lines out.
Proof. reflexivity. Qed.

Lemma line_feed_first (s : str) :
  len (filter (Z.eqb 10) (NL ++ s)) = 1 + len (filter (Z.eqb 10) s).
Proof.
  unfold NL. cbn [app filter]. rewrite Z.eqb_refl.
  unfold len. cbn [List.length]. lia.
Qed.

Lemma count_lines_ge (out : list str) : len out <= count_lines out.
Proof.
  induction out as [|s out IH]; [reflexivity|].
  unfold count_lines, len in *. cbn [fold_right List.length]. lia.
Qed.

Lemma no_line_feed (s : str) : ~ In 10 s -> filter (Z.eqb 10) s = [].
Proof.
  intros H. apply filter_none. intros c Hc. apply Z.eqb_neq.
  intros E. apply H. rewrite E. exact Hc.
Qed.

Lemma count_lines_plain (out : list str) :
  Forall (fun s => ~ In 10 s) out -> count_lines out = len out.
Proof.
  induction 1 as [|s out Hs _ IH]; [reflexivity|].
  unfold count_lines, len in *. cbn [fold_right List.length].
  rewrite (no_line_feed s Hs), IH. cbn [List.length]. lia.
Qed.

Lemma printable_no_line_feed (s : str) : Forall is_printable s -> ~ In 10 s.
Proof.
  intros H Hin. rewrite Forall_forall in H. specialize (H 10 Hin).
  unfold is_printable in H. lia.
Qed.

Lemma check_bytes_entry_line_printable (pos : Z) (content : bytes) (i : Z) :
  0 <= i ->
  Forall is_printable
         (CheckBytesReport.entry_line (CheckBytesReport.entry_at pos content i)).
Proof.
  intros Hi.
  destruct (byte_at_fields content i) as [_ [_ [_ [Hx [Hd Hr]]]]].
  unfold CheckBytesReport.entry_line.
  cbn [CheckBytesReport.entry_at e_offset e_byte e_char e_flag].
  apply Forall_app; split; [apply printable_check; reflexivity|].
  apply Forall_app; split; [apply fmt_wd_printable; exact Hi|].
  apply Forall_app; split; [apply printable_check; reflexivity|].
  apply Forall_app; split; [exact Hx|].
  apply Forall_app; split; [apply printable_check; reflexivity|].
  apply Forall_app; split; [exact Hd|].
  apply Forall_app; split; [apply printable_check; reflexivity|].
  apply Forall_app; split; [exact Hr|].
  apply Forall_app; split; [apply printable_check; reflexivity|].
  destruct (i =? pos); apply printable_check; reflexivity.
Qed.

Lemma labelled_number_no_line_feed (label : string) (z : Z) :
  0 <= z -> Forall is_printable (lit label) ->
  ~ In 10 (lit label ++ fmt_d z).
Proof.
  intros Hz Hl. apply printable_no_line_feed. apply Forall_app. split.
  - exact Hl.
  - apply digit_printable. apply fmt_d_reads_back. exact Hz.
Qed.

(** The lines of text of [check_bytes_correctly.py]: one for each string it
    prints and one more for the line feed that opens the header of the
    line. *)
Lemma check_bytes_report_lines (pos : Z) (content : bytes) :
  0 <= pos ->
  count_lines (CheckBytesReport.report pos content)
  = 1 + len (CheckBytesReport.report pos content).
Proof.
  intros Hpos. unfold CheckBytesReport.report.
  rewrite !count_lines_app, !len_app.
  rewrite (count_lines_plain (map _ _)).
  - assert (count_lines
              [lit "File length: " ++ fmt_d (len content);
               lit "Bytes around position 1175:"] = 2) as ->.
    { apply (count_lines_plain [_; _]).
      constructor; [|constructor; [|constructor]].
      - apply labelled_number_no_line_feed;
          [apply len_nonneg | apply printable_check; reflexivity].
      - apply printable_no_line_feed. apply printable_check. reflexivity. }
    assert (count_lines
              [NL ++ lit "Line containing position 1175:";
               lit "'"
                 ++ decode_utf8_replace
                      (CheckBytesCorrectly.line_content pos content)
                 ++ lit "'";
               lit "Offset within line: "
                 ++ fmt_d (CheckBytesCorrectly.offset_in_line pos content)]
            = 4) as ->.
    { rewrite count_lines_cons, line_feed_first.
      rewrite (no_line_feed (lit "Line containing position 1175:"))
        by (apply printable_no_line_feed, printable_check; reflexivity).
      rewrite (count_lines_plain [_; _]); [reflexivity|].
      constructor; [|constructor; [|constructor]].
      - intros Hin. apply in_app_or in Hin. destruct Hin as [Hin|Hin].
        + vm_compute in Hin. destruct Hin as [Hin|[]]. discriminate Hin.
        + apply in_app_or in Hin. destruct Hin as [Hin|Hin].
          * apply decode_ascii_from_bytes in Hin; [|lia].
            destruct Hin as [_ Hin].
            apply (line_content_no_newline pos content Hpos). exact Hin.
          * vm_compute in Hin. destruct Hin as [Hin|[]]. discriminate Hin.
      - apply labelled_number_no_line_feed;
          [|apply printable_check; reflexivity].
        destruct (line_start_spec pos content Hpos) as [Hs _].
        unfold CheckBytesCorrectly.offset_in_line. lia. }
    unfold len. cbn [List.length]. lia.
  - apply Forall_forall. intros line Hline. apply in_map_iff in Hline.
    destruct Hline as [e [<- He]].
    destruct (check_bytes_entry_in_window pos content e He) as [i [-> Hi]].
    apply printable_no_line_feed. apply check_bytes_entry_line_printable. lia.
Qed.

(** X10.  [check_bytes_correctly.py] calls [print] five times and once for
    each offset of its window, and its output has one line of text more than
    that, because one printed string starts with a line feed: from 6 to 26
    lines, whatever the file holds.  [find_error_char.py] calls [print] six
    times and once for each offset of its listing, from 7 to 27 calls, when
    the offset lies inside the file; its output has at least two lines more
    than calls, and more when a printed byte or the decoded context holds a
    line feed.  When the offset does not lie inside the file it prints one
    line. *)
Theorem X10_output_size (pos : Z) (content : bytes) :
  0 <= pos ->
  len (fst (run (CheckBytesCorrectly.script pos content)))
  = 5 + Z.max 0 (Z.min (len content) (pos + 15) - Z.max 0 (pos - 5))
  /\ count_lines (fst (run (CheckBytesCorrectly.script pos content)))
     = 6 + Z.max 0 (Z.min (len content) (pos + 15) - Z.max 0 (pos - 5))
  /\ 6 <= count_lines (fst (run (CheckBytesCorrectly.script pos content)))
     <= 26
  /\ (pos < len content ->
      len (fst (run (FindErrorChar.script pos content)))
      = 6 + (Z.min (len content) (pos + 11) - Z.max 0 (pos - 10))
      /\ 7 <= len (fst (run (FindErrorChar.script pos content))) <= 27
      /\ len (fst (run (FindErrorChar.script pos content))) + 2
         <= count_lines (fst (run (FindErrorChar.script pos content))))
  /\ (len content <= pos ->
      len (fst (run (FindErrorChar.script pos content))) = 1
      /\ count_lines (fst (run (FindErrorChar.script pos content))) = 1).
Proof.
  intros Hpos. pose proof (len_nonneg content) as Hl.
  assert (len (fst (run (CheckBytesCorrectly.script pos content)))
          = 5 + Z.max 0 (Z.min (len content) (pos + 15) - Z.max 0 (pos - 5)))
    as Ec.
  { rewrite check_bytes_run. cbn [fst]. unfold CheckBytesReport.report.
    unfold len. rewrite !length_app, !length_map.
    unfold CheckBytesReport.window_entries. rewrite length_map.
    unfold CheckBytesCorrectly.start, CheckBytesCorrectly.end_.
    pose proof (range_length (Z.max 0 (pos - 5))
                  (Z.min (len content) (pos + 15))) as Hr.
    unfold len in *. cbn [List.length]. lia. }
  assert (count_lines (fst (run (CheckBytesCorrectly.script pos content)))
          = 1 + len (fst (run (CheckBytesCorrectly.script pos content))))
    as El.
  { rewrite check_bytes_run. cbn [fst].
    apply check_bytes_report_lines. exact Hpos. }
  split; [exact Ec|]. split; [lia|]. split; [lia|]. split.
  - intros Hin.
    assert (len (fst (run (FindErrorChar.script pos content)))
            = 6 + (Z.min (len content) (pos + 11) - Z.max 0 (pos - 10)))
      as Ef.
    { rewrite find_error_char_run by lia. cbn [fst].
      unfold FindErrorCharReport.report.
      unfold len. rewrite !length_app, !length_map.
      unfold FindErrorCharReport.window_entries. rewrite length_map.
      pose proof (range_length (Z.max 0 (pos - 10))
                    (Z.min (len content) (pos + 11))) as Hr.
      unfold len in *. cbn [List.length]. lia. }
    split; [exact Ef|]. split; [lia|].
    rewrite find_error_char_run by lia. cbn [fst].
    unfold FindErrorCharReport.report.
    rewrite count_lines_app, len_app, !count_lines_cons, !line_feed_first.
    pose proof (count_lines_ge
                  (map FindErrorCharReport.entry_line
                       (FindErrorCharReport.window_entries pos content)))
      as Hge.
    match goal with
    | |- len (?a :: ?l) + _ + _ <= _ => change (len (a :: l)) with 6
    end.
    change (count_lines []) with 0.
    repeat match goal with
           | |- context [len (filter (Z.eqb 10) ?x)] =>
               let n := fresh "n" in
               let Hn := fresh "Hn" in
               pose proof (len_nonneg (filter (Z.eqb 10) x)) as Hn;
               set (n := len (filter (Z.eqb 10) x)) in *; clearbody n
           end.
    lia.
  - intros Hout. rewrite find_error_char_run_past_end by exact Hout.
    cbn [fst]. split; [reflexivity|].
    apply (count_lines_plain [_]). constructor; [|constructor].
    apply labelled_number_no_line_feed;
      [apply len_nonneg | apply printable_check; reflexivity].
Qed.

Lemma X10_output_size_witness :
  count_lines (fst (run (CheckBytesCorrectly.script ERROR_POS long_file))) = 26
  /\ len (fst (run (FindErrorChar.script ERROR_POS long_file))) = 27
  /\ count_lines (fst (run (FindErrorChar.script ERROR_POS hi))) = 1.
Proof.
  assert (0 <= ERROR_POS) as H0 by (unfold ERROR_POS; lia).
  destruct (X10_output_size ERROR_POS long_file H0) as [_ [H1 [_ [H3 _]]]].
  destruct (X10_output_size ERROR_POS hi H0) as [_ [_ [_ [_ H4]]]].
  split; [exact H1|]. split.
  - apply H3. change (1175 < 1200). lia.
  - apply H4. change (2 <= 1175). lia.
Defined.

(** ** More on the decoded text *)

Lemma chunk_src_nonempty (c : chunk) :
  chunk_ok c -> (1 <= List.length (chunk_src c))%nat.
Proof.
  destruct c as [cp src|src]; cbn [chunk_ok chunk_src].
  - intros [_ <-].
    destruct (utf8_encode_shape cp)
      as [[b [E _]]|[[b [c2 [E _]]]|[[b [c2 [c3 [E _]]]]|[b [c2 [c3 [c4 E]]]]]]];
      rewrite E; cbn; lia.
  - intros [H _]. lia.
Qed.

Lemma chunks_count (cs : list chunk) :
  Forall chunk_ok cs ->
  (List.length cs <= List.length (List.concat (map chunk_src cs)))%nat.
Proof.
  induction 1 as [|c cs Hc _ IH]; [cbn; lia|].
  cbn [map List.concat List.length]. rewrite length_app.
  pose proof (chunk_src_nonempty c Hc). lia.
Qed.

(** X11.  The text that the scripts print for the line and for the context
    has at most as many characters as the slice has bytes, each character is
    a Unicode scalar value (never a surrogate, never above U+10FFFF), and a
    slice of ASCII bytes is printed byte for byte. *)
Theorem X11_decoded_text (bs : bytes) :
  (List.length (decode_utf8_replace bs) <= List.length bs)%nat
  /\ Forall (fun c => is_scalar c = true) (decode_utf8_replace bs)
  /\ (Forall (fun b => byte_int b < 128) bs ->
      decode_utf8_replace bs = map byte_int bs).
Proof.
  destruct (utf8_chunks_sound bs) as [Hcat Hok].
  split; [|split].
  - unfold decode_utf8_replace. rewrite length_map.
    rewrite <- Hcat at 2. apply chunks_count. exact Hok.
  - unfold decode_utf8_replace. apply Forall_map.
    revert Hok. apply Forall_impl. intros [cp src|src]; cbn [chunk_ok chunk_char].
    + intros [H _]. exact H.
    + intros _. reflexivity.
  - apply decode_utf8_replace_ascii.
Qed.

Lemma X11_decoded_text_witness :
  decode_utf8_replace [x64; x65; x66]%byte = [100; 101; 102].
Proof.
  destruct (X11_decoded_text [x64; x65; x66]%byte) as [_ [_ H]].
  rewrite H; [reflexivity|].
  repeat constructor.
Defined.

(** X13.  Decoding loses nothing unless it shows it: when the decoded text
    holds no placeholder U+FFFD, encoding it again gives back the bytes that
    were decoded. *)
Theorem X13_decode_then_encode (bs : bytes) :
  ~ In REPLACEMENT (decode_utf8_replace bs) ->
  flat_map utf8_encode (decode_utf8_replace bs) = bs.
Proof.
  destruct (utf8_chunks_sound bs) as [Hcat Hok].
  unfold decode_utf8_replace. intros Hno. rewrite <- Hcat at 2.
  clear Hcat. induction Hok as [|c cs Hc _ IH]; [reflexivity|].
  cbn [map flat_map List.concat] in *. f_equal.
  - destruct c as [cp src|src]; cbn [chunk_ok chunk_char chunk_src] in *.
    + apply Hc.
    + exfalso. apply Hno. left. reflexivity.
  - apply IH. intros Hin. apply Hno. right. exact Hin.
Qed.

Lemma X13_decode_then_encode_witness :
  flat_map utf8_encode (decode_utf8_replace [xe2; x82; xac; x41]%byte)
  = [xe2; x82; xac; x41]%byte.
Proof.
  apply X13_decode_then_encode.
  vm_compute. intros [H|[H|[]]]; discriminate H.
Defined.

(** ** The column and the target *)

(** X14.  For an offset inside the file, the column that
    [check_bytes_correctly.py] prints is the index of the target byte in the
    containing line when that byte is not a newline; when the target byte is
    a newline the column is the length of the line, one past its last byte. *)
Theorem X14_column_points_at_target (pos : Z) (content : bytes) :
  0 <= pos < len content ->
  (~ has content pos newline ->
   nth_error (CheckBytesCorrectly.line_content pos content)
             (Z.to_nat (CheckBytesCorrectly.offset_in_line pos content))
   = nth_error content (Z.to_nat pos))
  /\ (has content pos newline ->
      CheckBytesCorrectly.offset_in_line pos content
      = len (CheckBytesCorrectly.line_content pos content)
      /\ nth_error (CheckBytesCorrectly.line_content pos content)
                   (Z.to_nat (CheckBytesCorrectly.offset_in_line pos content))
         = None).
Proof.
  intros [Hpos Hlt].
  destruct (line_start_spec pos content Hpos) as [Hs _].
  destruct (line_end_spec pos content Hpos) as [Hel [Hafter Hcase]].
  unfold CheckBytesCorrectly.offset_in_line.
  split.
  - intros Hnot. rewrite line_content_nth_error by exact Hpos.
    assert (pos < CheckBytesCorrectly.line_end pos content) as Hlt'.
    { destruct Hcase as [[E _]|[Hr Hat]]; [lia|].
      destruct (Z.eq_dec (CheckBytesCorrectly.line_end pos content) pos)
        as [E|Hne]; [|lia].
      exfalso. apply Hnot. rewrite <- E. exact Hat. }
    destruct (Z.ltb_spec
                (Z.of_nat (Z.to_nat (pos - CheckBytesCorrectly.line_start pos content)))
                (CheckBytesCorrectly.line_end pos content
                 - CheckBytesCorrectly.line_start pos content)); [|lia].
    f_equal. lia.
  - intros Hnl.
    assert (CheckBytesCorrectly.line_end pos content = pos) as E.
    { destruct Hcase as [[E Hno]|[Hr Hat]].
      - exfalso. apply (Hno pos); [lia | exact Hnl].
      - destruct (Z.eq_dec (CheckBytesCorrectly.line_end pos content) pos)
          as [E|Hne]; [exact E|].
        exfalso. apply (Hafter pos); [lia | exact Hnl]. }
    rewrite line_content_len by exact Hpos. rewrite E.
    split; [reflexivity|].
    rewrite line_content_nth_error by exact Hpos. rewrite E.
    destruct (Z.ltb_spec
                (Z.of_nat (Z.to_nat (pos - CheckBytesCorrectly.line_start pos content)))
                (pos - CheckBytesCorrectly.line_start pos content));
      [lia | reflexivity].
Qed.

Lemma X14_column_points_at_target_witness :
  nth_error (CheckBytesCorrectly.line_content 5 abc_def)
            (Z.to_nat (CheckBytesCorrectly.offset_in_line 5 abc_def))
  = Some x65.
Proof.
  destruct (X14_column_points_at_target 5 abc_def) as [H _].
  - change (0 <= 5 < 8). lia.
  - rewrite H; [reflexivity|].
    intros [_ Hnl]. vm_compute in Hnl. discriminate Hnl.
Defined.
